(** * Docker runtime executor of the Lambda emulation

    A shallow embedding of
    [localstack/services/awslambda/invocation/docker_runtime_executor.py]:
    the naming helpers, the image resolver, the per-version preparation and
    cleanup pipeline and the per-instance executor life cycle, followed by
    the properties established about them.

    Conventions.
    - A Python [str] is a Rocq [string]; a character is a code point
      below 256.
    - A [dict] is a [gmap] where only lookups matter.
    - Code with effects lives in a state-and-exception monad.  The state is
      the object the method runs on together with the history of calls made
      to the collaborators that are outside this module (container client,
      file system, executor endpoint, logger, clock).  What such a call
      answers is given by an environment, as a function of the history so
      far and of the arguments. *)

From Stdlib Require Import String Ascii List ZArith Bool Lia.
From stdpp Require Import base option list strings gmap.

Import ListNotations.
Local Open Scope list_scope.
Local Open Scope string_scope.

(** ** Python values used by the module *)

Module Py.

(** [s.replace(old, new)] for one-character [old] and [new], the only
    form the module uses. *)
Fixpoint str_replace (old new : ascii) (s : string) : string :=
  match s with
  | EmptyString => EmptyString
  | String c s' =>
      String (if Ascii.eqb c old then new else c) (str_replace old new s')
  end.

(** Lower-casing of one code point below 256: the letters A-Z and the
    Latin-1 capitals (0xC0-0xDE without the multiplication sign 0xD7)
    move up by 32, everything else stays. *)
Definition chr_lower (c : ascii) : ascii :=
  let n := N_of_ascii c in
  if ((65 <=? n) && (n <=? 90))%N
     || ((192 <=? n) && (n <=? 222) && negb (n =? 215))%N
  then ascii_of_N (n + 32)
  else c.

(** [s.lower()]. *)
Fixpoint str_lower (s : string) : string :=
  match s with
  | EmptyString => EmptyString
  | String c s' => String (chr_lower c) (str_lower s')
  end.

(** [c in s] for a character [c]. *)
Fixpoint str_contains (c : ascii) (s : string) : bool :=
  match s with
  | EmptyString => false
  | String d s' => Ascii.eqb d c || str_contains c s'
  end.

(** [s.split(sep)] for a one-character separator. *)
Fixpoint str_split (sep : ascii) (s : string) : list string :=
  match s with
  | EmptyString => [EmptyString]
  | String c s' =>
      if Ascii.eqb c sep then EmptyString :: str_split sep s'
      else match str_split sep s' with
           | [] => [String c EmptyString]
           | w :: ws => String c w :: ws
           end
  end.

(** [sep.join(ws)]. *)
Fixpoint str_join (sep : string) (ws : list string) : string :=
  match ws with
  | [] => EmptyString
  | [w] => w
  | w :: ws' => w ++ sep ++ str_join sep ws'
  end.

(** Truth value of an [Optional[str]]: [None] and the empty string are
    false. *)
Definition truthy (o : option string) : bool :=
  match o with
  | None => false
  | Some EmptyString => false
  | Some _ => true
  end.

(** *** [pathlib.PurePosixPath]

    A path is kept the way [pathlib] keeps it: its root and the list of
    its components.  Two paths are equal when both agree. *)
Record Path : Type := mkPath { root : string; parts : list string }.

(** Number of slashes a string starts with. *)
Fixpoint leading_slashes (s : string) : nat :=
  match s with
  | String "/" s' => S (leading_slashes s')
  | _ => 0
  end.

(** [splitroot]: exactly two leading slashes are kept, any other
    positive number collapses to one. *)
Definition splitroot (s : string) : string :=
  match leading_slashes s with
  | 0 => ""
  | 2 => "//"
  | _ => "/"
  end.

(** A component survives parsing unless it is empty or a single dot. *)
Definition keeps_part (w : string) : bool :=
  negb (String.eqb w "") && negb (String.eqb w ".").

(** [Path(s)]. *)
Definition Path_of (s : string) : Path :=
  {| root := splitroot s;
     parts := List.filter keeps_part (str_split "/" s) |}.

(** [p / s]: an absolute right operand replaces the path, a relative one
    extends it. *)
Definition Path_div (p : Path) (s : string) : Path :=
  let q := Path_of s in
  if String.eqb (root q) "" then
    {| root := root p; parts := (parts p ++ parts q)%list |}
  else q.

(** [str(p)]. *)
Definition Path_str (p : Path) : string :=
  match root p, parts p with
  | EmptyString, [] => "."
  | r, ws => r ++ str_join "/" ws
  end.

End Py.

Import Py.

(** *** Exceptions

    The classes that the module raises or names in a handler, and those the
    collaborators are documented to raise.  Every one of them derives from
    [Exception]. *)

Inductive ExnClass : Type :=
| Exception
| OSError
| FileNotFoundError
| PermissionError
| ValueError
| AttributeError
| RuntimeError
| NotImplementedError
| LambdaRuntimeException
| ContainerException
| NoSuchImage
| NoSuchContainer.

#[global] Instance ExnClass_eq_dec : EqDecision ExnClass.
Proof. solve_decision. Defined.

(** The direct base class; [Exception] is the top of the modelled part of
    the hierarchy. *)
Definition base_class (c : ExnClass) : option ExnClass :=
  match c with
  | Exception => None
  | OSError => Some Exception
  | FileNotFoundError => Some OSError
  | PermissionError => Some OSError
  | ValueError => Some Exception
  | AttributeError => Some Exception
  | RuntimeError => Some Exception
  | NotImplementedError => Some RuntimeError
  | LambdaRuntimeException => Some Exception
  | ContainerException => Some Exception
  | NoSuchImage => Some ContainerException
  | NoSuchContainer => Some ContainerException
  end.

(** [issubclass c d], following [base_class] upwards; the hierarchy is at
    most three levels deep. *)
Fixpoint issubclass_fuel (fuel : nat) (c d : ExnClass) : bool :=
  bool_decide (c = d) ||
  match fuel, base_class c with
  | S fuel', Some b => issubclass_fuel fuel' b d
  | _, _ => false
  end.

Definition issubclass (c d : ExnClass) : bool := issubclass_fuel 3 c d.

(** An exception instance: its class, [str(e)], and the two attributes of
    an [OSError] that the module reads. *)
Record exn : Type := mkExn {
  exn_class : ExnClass;
  exn_str : string;
  strerror : option string;
  filename : option string
}.

Definition isinstance (e : exn) (c : ExnClass) : bool :=
  issubclass (exn_class e) c.

(** [cls(message)]. *)
Definition new_exn (c : ExnClass) (message : string) : exn :=
  {| exn_class := c; exn_str := message; strerror := None; filename := None |}.

(** ** The data model *)

Definition bytes : Type := list Byte.byte.

(** A reading of [time.perf_counter()]. *)
Definition Clock : Type := Z.

(** A reference to an object owned by another module. *)
Definition ServiceEndpoint : Type := positive.
Definition ArchiveCode : Type := positive.

(** [function_version.id]; only its qualified ARN is used here. *)
Record VersionIdentifier : Type := {
  vi_qualified_arn : string
}.

(** [function_version.config]; [internal_revision] is the text an f-string
    renders for it. *)
Record VersionFunctionConfiguration : Type := {
  runtime : option string;
  internal_revision : string;
  code : ArchiveCode
}.

Record FunctionVersion : Type := {
  fv_id : VersionIdentifier;
  fv_config : VersionFunctionConfiguration;
  qualified_arn : string
}.

Record ContainerConfiguration : Type := mkContainerConfiguration {
  image_name : string;
  name : string;
  env_vars : gmap string string;
  network : string;
  entrypoint : string
}.

(** The fields of an [ExecutorEndpoint] this module sets or passes on. *)
Record ExecutorEndpoint : Type := mkExecutorEndpoint {
  port : Z;
  ep_service_endpoint : ServiceEndpoint;
  container_address : option string
}.

Record DockerRuntimeExecutor : Type := mkDockerRuntimeExecutor {
  id : string;
  function_version : FunctionVersion;
  service_endpoint : ServiceEndpoint;
  ip : option string;
  executor_endpoint : ExecutorEndpoint
}.

(** ** Calls to collaborators *)

Inductive LogMethod : Type := LOG_debug | LOG_error | LOG_exception.

Inductive LogArg : Type :=
| AStr (s : string)
| AOptStr (o : option string)
| AExn (e : exn)
| AElapsedMs (before after : Clock).

Inductive FileData : Type :=
| Bytes (b : bytes)
| Text (s : string).

Inductive Call : Type :=
| CLog (m : LogMethod) (fmt : string) (args : list LogArg)
| Cperf_counter
| Cmkdir (p : Path) (parents exist_ok : bool)
| CNamedTemporaryFile
| Copen (p : Path) (mode : string)
| Cfile_write (file : string) (data : FileData)
| Cfile_flush (file : string)
| Cfile_exit (file : string)
| Cget_lambda_archive (c : ArchiveCode)
| Cunzip (src dst : string)
| Cget_executable_path
| Cshutil_copy (src : Path) (dst : string)
| Cchmod (target : string) (mode : Z)
| Crmtree (p : Path)
| Cget_docker_image_names (strip_latest : bool)
| Cpull_image (image : string)
| Cbuild_image (dockerfile_path image : string)
| Cremove_image (image : string)
| Cget_free_tcp_port
| CExecutorEndpoint (port : Z) (se : ServiceEndpoint)
| Cendpoint_start (ep : ExecutorEndpoint)
| Cendpoint_shutdown (ep : ExecutorEndpoint)
| Cendpoint_invoke (ep : ExecutorEndpoint) (payload : gmap string string)
| Cget_container_network_for_lambda
| Cget_main_endpoint_from_container
| Ccreate_container_from_config (cfg : ContainerConfiguration)
| Ccopy_into_container (container src dst : string)
| Cstart_container (container : string)
| Cstop_container (container : string) (timeout : Z)
| Cremove_container (container : string)
| Cget_container_ipv4_for_network (container net : string).

(** One entry of the history: the call and the exception it ended with,
    if any. *)
Record Event : Type := mkEvent {
  ev_call : Call;
  ev_raised : option exn
}.

Definition History : Type := list Event.

(** ** The monad *)

Inductive Outcome (A : Type) : Type :=
| Returned (a : A)
| Raised (e : exn).

Arguments Returned {A} a.
Arguments Raised {A} e.

Definition raised_of {A} (o : Outcome A) : option exn :=
  match o with
  | Returned _ => None
  | Raised e => Some e
  end.

(** What a computation leaves behind: how it ended, the object and the
    history. *)
Record Run (S A : Type) : Type := mkRun {
  result : Outcome A;
  final : S;
  calls : History
}.

Arguments mkRun {S A} result final calls.
Arguments result {S A} r.
Arguments final {S A} r.
Arguments calls {S A} r.

Definition M (S A : Type) : Type := S -> History -> Run S A.

Definition ret {S A} (a : A) : M S A :=
  fun s h => mkRun (Returned a) s h.

Definition raise {S A} (e : exn) : M S A :=
  fun s h => mkRun (Raised e) s h.

Definition bind {S A B} (m : M S A) (k : A -> M S B) : M S B :=
  fun s h =>
    let r := m s h in
    match result r with
    | Returned a => k a (final r) (calls r)
    | Raised e => mkRun (Raised e) (final r) (calls r)
    end.

Notation "'let*' x ':=' m 'in' k" := (bind m (fun x => k))
  (at level 10, x binder, m at level 100, k at level 200).

(** A value or exception computed without effects. *)
Definition lift {S A} (o : Outcome A) : M S A :=
  fun s h => mkRun o s h.

Definition get_self {S} : M S S :=
  fun s h => mkRun (Returned s) s h.

Definition set_self {S} (s' : S) : M S unit :=
  fun _ h => mkRun (Returned tt) s' h.

(** A call to a collaborator: the environment answers from the history,
    and the call is appended to it. *)
Definition extern {S A} (c : Call) (answer : History -> Outcome A) : M S A :=
  fun s h =>
    let o := answer h in
    mkRun o s (h ++ [mkEvent c (raised_of o)])%list.

(** [try: body  except cls as e: handler(e)]. *)
Definition try_except {S A} (body : M S A) (cls : ExnClass)
    (handler : exn -> M S A) : M S A :=
  fun s h =>
    let r := body s h in
    match result r with
    | Returned a => r
    | Raised e =>
        if isinstance e cls then handler e (final r) (calls r) else r
    end.

(** [try: body  finally: fin]; an exception of [fin] replaces the outcome
    of [body]. *)
Definition finally {S A} (body : M S A) (fin : M S unit) : M S A :=
  fun s h =>
    let r := body s h in
    let r' := fin (final r) (calls r) in
    match result r' with
    | Returned _ => mkRun (result r) (final r') (calls r')
    | Raised e => mkRun (Raised e) (final r') (calls r')
    end.

(** [with enter as x: body(x)], for a context manager whose [__exit__]
    does not suppress exceptions. *)
Definition with_ {S R A} (enter : M S R) (exit : R -> M S unit)
    (body : R -> M S A) : M S A :=
  let* x := enter in finally (body x) (exit x).

(** ** The environment

    Configuration values, constants and library functions defined in other
    modules, and the answers of the collaborators. *)

Record Env : Type := {
  (* localstack.config *)
  LAMBDA_PREBUILD_IMAGES : bool;
  LAMBDA_TRUNCATE_STDOUT : Z;
  (* lambda_models.IMAGE_MAPPING *)
  IMAGE_MAPPING : gmap string string;
  (* tempfile.gettempdir() *)
  gettempdir : string;
  (* LOG.isEnabledFor(logging.DEBUG) *)
  debug_enabled : bool;
  (* json.dumps and localstack.utils.strings.truncate *)
  json_dumps : gmap string string -> string;
  truncate : string -> Z -> string;
  (* clock, file system, archives, package installer *)
  perf_counter_ : History -> Clock;
  mkdir_ : History -> Path -> Outcome unit;
  NamedTemporaryFile_ : History -> Outcome string;
  open_ : History -> Path -> string -> Outcome unit;
  file_write_ : History -> string -> FileData -> Outcome unit;
  file_flush_ : History -> string -> Outcome unit;
  file_exit_ : History -> string -> Outcome unit;
  get_lambda_archive_ : History -> ArchiveCode -> Outcome bytes;
  unzip_ : History -> string -> string -> Outcome unit;
  get_executable_path_ : History -> Outcome string;
  shutil_copy_ : History -> Path -> string -> Outcome unit;
  chmod_ : History -> string -> Z -> Outcome unit;
  rmtree_ : History -> Path -> Outcome unit;
  (* CONTAINER_CLIENT *)
  get_docker_image_names_ : History -> bool -> Outcome (list string);
  pull_image_ : History -> string -> Outcome unit;
  build_image_ : History -> string -> string -> Outcome unit;
  remove_image_ : History -> string -> Outcome unit;
  create_container_from_config_ : History -> ContainerConfiguration -> Outcome unit;
  copy_into_container_ : History -> string -> string -> string -> Outcome unit;
  start_container_ : History -> string -> Outcome unit;
  stop_container_ : History -> string -> Z -> Outcome unit;
  remove_container_ : History -> string -> Outcome unit;
  get_container_ipv4_for_network_ : History -> string -> string -> Outcome string;
  (* networking helpers and the executor endpoint *)
  get_free_tcp_port_ : History -> Outcome Z;
  get_container_network_for_lambda_ : History -> Outcome string;
  get_main_endpoint_from_container_ : History -> Outcome string;
  ExecutorEndpoint_ : History -> Z -> ServiceEndpoint -> Outcome unit;
  endpoint_start_ : History -> ExecutorEndpoint -> Outcome unit;
  endpoint_shutdown_ : History -> ExecutorEndpoint -> Outcome unit;
  endpoint_invoke_ : History -> ExecutorEndpoint -> gmap string string -> Outcome unit
}.

(** ** The module *)

Definition IMAGE_PREFIX : string := "amazon/aws-lambda-".

Definition RAPID_ENTRYPOINT : string := "/var/rapid/init".

Definition newline : string := String (ascii_of_nat 10) EmptyString.

(** [LAMBDA_DOCKERFILE.format(base_img=..., rapid_entrypoint=...)]. *)
Definition LAMBDA_DOCKERFILE (base_img rapid_entrypoint : string) : string :=
  "FROM " ++ base_img ++ newline ++
  "COPY aws-lambda-rie " ++ rapid_entrypoint ++ newline ++
  "COPY code/ /var/task" ++ newline.

(** [arn.replace(':', '_').replace('$', '_')], shared by the two naming
    helpers. *)
Definition sanitized (arn : string) : string :=
  str_replace "$" "_" (str_replace ":" "_" arn).

(** The character-wise reading of [sanitized]. *)
Definition sanitized_chr (c : ascii) : ascii :=
  if Ascii.eqb (if Ascii.eqb c ":" then "_" else c) "$" then "_"%char
  else if Ascii.eqb c ":" then "_"%char else c.

(** [NotImplementedError("Custom images are currently not supported")]. *)
Definition custom_images_unsupported : exn :=
  new_exn NotImplementedError "Custom images are currently not supported".

(** How an f-string renders an [Optional[str]]. *)
Definition format_opt (o : option string) : string :=
  match o with
  | Some s => s
  | None => "None"
  end.

Section Functions.

Context (env : Env).

Definition get_path_for_function (function_version : FunctionVersion) : Path :=
  Path_of (gettempdir env ++ "/lambda/"
           ++ sanitized (vi_qualified_arn (fv_id function_version))
           ++ "_" ++ internal_revision (fv_config function_version) ++ "/").

Definition get_code_path_for_function (function_version : FunctionVersion) : Path :=
  Path_div (get_path_for_function function_version) "code".

Definition get_image_name_for_function (function_version : FunctionVersion) : string :=
  "localstack/lambda-"
  ++ str_lower (sanitized (vi_qualified_arn (fv_id function_version))).

(** The argument is whatever [config.runtime] holds, a string or [None]. *)
Definition get_image_for_runtime (runtime : option string) : Outcome string :=
  let postfix := runtime ≫= fun r => IMAGE_MAPPING env !! r in
  if negb (truthy postfix) then
    Raised (new_exn ValueError ("Unsupported runtime " ++ format_opt runtime ++ "!"))
  else
    Returned (IMAGE_PREFIX ++ format_opt postfix).

Context {S : Type}.

(** *** Collaborators, as calls *)

Definition LOG (m : LogMethod) (fmt : string) (args : list LogArg) : M S unit :=
  extern (CLog m fmt args) (fun _ => Returned tt).

(** Reading the clock does not fail. *)
Definition perf_counter : M S Clock :=
  extern Cperf_counter (fun h => Returned (perf_counter_ env h)).

Definition mkdir (p : Path) (parents exist_ok : bool) : M S unit :=
  extern (Cmkdir p parents exist_ok) (fun h => mkdir_ env h p).

Definition NamedTemporaryFile : M S string :=
  extern CNamedTemporaryFile (NamedTemporaryFile_ env).

(** [p.open(mode=...)]; the file object is referred to by its name. *)
Definition open (p : Path) (mode : string) : M S string :=
  let* _ := extern (Copen p mode) (fun h => open_ env h p mode) in
  ret (Path_str p).

Definition file_write (file : string) (data : FileData) : M S unit :=
  extern (Cfile_write file data) (fun h => file_write_ env h file data).

Definition file_flush (file : string) : M S unit :=
  extern (Cfile_flush file) (fun h => file_flush_ env h file).

Definition file_exit (file : string) : M S unit :=
  extern (Cfile_exit file) (fun h => file_exit_ env h file).

Definition get_lambda_archive (c : ArchiveCode) : M S bytes :=
  extern (Cget_lambda_archive c) (fun h => get_lambda_archive_ env h c).

Definition unzip (src dst : string) : M S unit :=
  extern (Cunzip src dst) (fun h => unzip_ env h src dst).

Definition get_executable_path : M S string :=
  extern Cget_executable_path (get_executable_path_ env).

Definition shutil_copy (src : Path) (dst : string) : M S unit :=
  extern (Cshutil_copy src dst) (fun h => shutil_copy_ env h src dst).

Definition chmod (target : string) (mode : Z) : M S unit :=
  extern (Cchmod target mode) (fun h => chmod_ env h target mode).

Definition rmtree (p : Path) : M S unit :=
  extern (Crmtree p) (fun h => rmtree_ env h p).

Definition get_docker_image_names (strip_latest : bool) : M S (list string) :=
  extern (Cget_docker_image_names strip_latest)
         (fun h => get_docker_image_names_ env h strip_latest).

Definition pull_image (image : string) : M S unit :=
  extern (Cpull_image image) (fun h => pull_image_ env h image).

Definition build_image (dockerfile_path image : string) : M S unit :=
  extern (Cbuild_image dockerfile_path image)
         (fun h => build_image_ env h dockerfile_path image).

Definition remove_image (image : string) : M S unit :=
  extern (Cremove_image image) (fun h => remove_image_ env h image).

Definition create_container_from_config (cfg : ContainerConfiguration) : M S unit :=
  extern (Ccreate_container_from_config cfg)
         (fun h => create_container_from_config_ env h cfg).

Definition copy_into_container (container src dst : string) : M S unit :=
  extern (Ccopy_into_container container src dst)
         (fun h => copy_into_container_ env h container src dst).

Definition start_container (container : string) : M S unit :=
  extern (Cstart_container container) (fun h => start_container_ env h container).

Definition stop_container (container : string) (timeout : Z) : M S unit :=
  extern (Cstop_container container timeout)
         (fun h => stop_container_ env h container timeout).

Definition remove_container (container : string) : M S unit :=
  extern (Cremove_container container) (fun h => remove_container_ env h container).

Definition get_container_ipv4_for_network (container net : string) : M S string :=
  extern (Cget_container_ipv4_for_network container net)
         (fun h => get_container_ipv4_for_network_ env h container net).

Definition get_free_tcp_port : M S Z :=
  extern Cget_free_tcp_port (get_free_tcp_port_ env).

Definition get_container_network_for_lambda : M S string :=
  extern Cget_container_network_for_lambda (get_container_network_for_lambda_ env).

Definition get_main_endpoint_from_container : M S string :=
  extern Cget_main_endpoint_from_container (get_main_endpoint_from_container_ env).

(** [ExecutorEndpoint(port, service_endpoint=...)]. *)
Definition new_ExecutorEndpoint (port : Z) (se : ServiceEndpoint) : M S ExecutorEndpoint :=
  let* _ := extern (CExecutorEndpoint port se) (fun h => ExecutorEndpoint_ env h port se) in
  ret {| port := port; ep_service_endpoint := se; container_address := None |}.

Definition endpoint_start (ep : ExecutorEndpoint) : M S unit :=
  extern (Cendpoint_start ep) (fun h => endpoint_start_ env h ep).

Definition endpoint_shutdown (ep : ExecutorEndpoint) : M S unit :=
  extern (Cendpoint_shutdown ep) (fun h => endpoint_shutdown_ env h ep).

Definition endpoint_invoke (ep : ExecutorEndpoint) (payload : gmap string string) : M S unit :=
  extern (Cendpoint_invoke ep payload) (fun h => endpoint_invoke_ env h ep payload).

(** *** Module-level functions *)

Definition get_runtime_client_path : M S Path :=
  let* executable := get_executable_path in
  ret (Path_of executable).

Definition prepare_image (target_path : Path) (function_version : FunctionVersion)
    : M S unit :=
  if negb (truthy (runtime (fv_config function_version))) then
    raise custom_images_unsupported
  else
    let* src_init := get_runtime_client_path in
    (* copy init file *)
    let* target_init := get_executable_path in
    let* _ := shutil_copy src_init target_init in
    let* _ := chmod target_init 493 in
    (* create dockerfile *)
    let docker_file_path := Path_div target_path "Dockerfile" in
    let* base_img := lift (get_image_for_runtime (runtime (fv_config function_version))) in
    let docker_file := LAMBDA_DOCKERFILE base_img RAPID_ENTRYPOINT in
    let* _ := with_ (open docker_file_path "w") file_exit
                (fun f => file_write f (Text docker_file)) in
    try_except
      (build_image (Path_str docker_file_path)
                   (get_image_name_for_function function_version))
      Exception
      (fun e =>
         if debug_enabled env then
           LOG LOG_exception "Error while building prebuilt lambda image for '%s'"
               [AStr (qualified_arn function_version)]
         else
           LOG LOG_error "Error while building prebuilt lambda image for '%s', Error: %s"
               [AStr (qualified_arn function_version); AExn e]).

(** *** Class methods of [DockerRuntimeExecutor] *)

Definition prepare_version (function_version : FunctionVersion) : M S unit :=
  let* time_before := perf_counter in
  let target_path := get_path_for_function function_version in
  let* _ := mkdir target_path true true in
  (* write code to disk *)
  let target_code := get_code_path_for_function function_version in
  let* _ := mkdir target_code true true in
  let* _ := with_ NamedTemporaryFile file_exit
              (fun file =>
                 let* archive := get_lambda_archive (code (fv_config function_version)) in
                 let* _ := file_write file (Bytes archive) in
                 let* _ := file_flush file in
                 unzip file (Path_str target_code)) in
  let* image_name := lift (get_image_for_runtime (runtime (fv_config function_version))) in
  let* cached := get_docker_image_names false in
  let* _ := if negb (bool_decide (image_name ∈ cached))
            then pull_image image_name else ret tt in
  let* _ := if LAMBDA_PREBUILD_IMAGES env
            then prepare_image target_path function_version else ret tt in
  let* time_after := perf_counter in
  LOG LOG_debug "Version preparation took %0.2fms" [AElapsedMs time_before time_after].

Definition cleanup_version (function_version : FunctionVersion) : M S unit :=
  let function_path := get_path_for_function function_version in
  let* _ := try_except (rmtree function_path) OSError
              (fun e =>
                 LOG LOG_debug
                     "Could not cleanup function %s due to error %s while deleting file %s"
                     [AStr (qualified_arn function_version);
                      AOptStr (strerror e); AOptStr (filename e)]) in
  if LAMBDA_PREBUILD_IMAGES env then
    remove_image (get_image_name_for_function function_version)
  else ret tt.

(** *** Construction of a [DockerRuntimeExecutor] *)

Definition _build_executor_endpoint (self_id : string)
    (self_function_version : FunctionVersion) (service_endpoint : ServiceEndpoint)
    : M S ExecutorEndpoint :=
  let* port := get_free_tcp_port in
  let* _ := LOG LOG_debug "Creating service endpoint for function %s executor %s"
                [AStr (qualified_arn self_function_version); AStr self_id] in
  let* executor_endpoint := new_ExecutorEndpoint port service_endpoint in
  let* _ := LOG LOG_debug "Finished creating service endpoint for function %s executor %s"
                [AStr (qualified_arn self_function_version); AStr self_id] in
  ret executor_endpoint.

(** [DockerRuntimeExecutor(id, function_version, service_endpoint)]. *)
Definition __init__ (id : string) (function_version : FunctionVersion)
    (service_endpoint : ServiceEndpoint) : M S DockerRuntimeExecutor :=
  let* endpoint := _build_executor_endpoint id function_version service_endpoint in
  ret {| id := id;
         function_version := function_version;
         service_endpoint := service_endpoint;
         ip := None;
         executor_endpoint := endpoint |}.

End Functions.

(** *** Instance methods of [DockerRuntimeExecutor]

    The state of the monad is [self]. *)

Section Methods.

Context (env : Env).

Abbreviation Method := (M DockerRuntimeExecutor).

Definition get_image : Method string :=
  let* self := get_self in
  if negb (truthy (runtime (fv_config (function_version self)))) then
    raise custom_images_unsupported
  else if LAMBDA_PREBUILD_IMAGES env then
    ret (get_image_name_for_function (function_version self))
  else
    lift (get_image_for_runtime env (runtime (fv_config (function_version self)))).

Definition get_endpoint_from_executor : Method string :=
  get_main_endpoint_from_container env.

Definition _get_network_for_executor : Method string :=
  get_container_network_for_lambda env.

Definition set_ip (address : string) : Method unit :=
  let* self := get_self in
  set_self {| id := id self;
              function_version := function_version self;
              service_endpoint := service_endpoint self;
              ip := Some address;
              executor_endpoint := executor_endpoint self |}.

(** [self.executor_endpoint.container_address = value]. *)
Definition set_container_address (value : option string) : Method unit :=
  let* self := get_self in
  set_self {| id := id self;
              function_version := function_version self;
              service_endpoint := service_endpoint self;
              ip := ip self;
              executor_endpoint :=
                {| port := port (executor_endpoint self);
                   ep_service_endpoint := ep_service_endpoint (executor_endpoint self);
                   container_address := value |} |}.

Definition start (env_vars : gmap string string) : Method unit :=
  let* self := get_self in
  let* _ := endpoint_start env (executor_endpoint self) in
  let* network := _get_network_for_executor in
  let* image := get_image in
  let container_config :=
    {| image_name := image;
       name := id self;
       env_vars := env_vars;
       network := network;
       entrypoint := RAPID_ENTRYPOINT |} in
  let* _ := create_container_from_config env container_config in
  let* _ :=
    if negb (LAMBDA_PREBUILD_IMAGES env) then
      let* client_path := get_runtime_client_path env in
      let* _ := copy_into_container env (id self) (Path_str client_path)
                  RAPID_ENTRYPOINT in
      copy_into_container env (id self)
        (Path_str (get_code_path_for_function env (function_version self)) ++ "/.")
        "/var/task"
    else ret tt in
  let* _ := start_container env (id self) in
  let* address := get_container_ipv4_for_network env (id self) network in
  let* _ := set_ip address in
  let* self := get_self in
  set_container_address (ip self).

Definition stop : Method unit :=
  let* self := get_self in
  let* _ := stop_container env (id self) 5 in
  let* _ := remove_container env (id self) in
  try_except (endpoint_shutdown env (executor_endpoint self)) Exception
    (fun e =>
       LOG LOG_debug "Error while stopping executor endpoint for lambda %s, error: %s"
           [AStr (qualified_arn (function_version self)); AExn e]).

Definition address_unknown (self : DockerRuntimeExecutor) : exn :=
  new_exn LambdaRuntimeException
    ("IP address of executor '" ++ id self ++ "' unknown").

Definition get_address : Method string :=
  let* self := get_self in
  let unknown := raise (address_unknown self) in
  (* [if not self.ip]: the address is missing or empty *)
  match ip self with
  | None => unknown
  | Some EmptyString => unknown
  | Some address => ret address
  end.

Definition invoke (payload : gmap string string) : Method unit :=
  let* self := get_self in
  let* _ := LOG LOG_debug "Sending invoke-payload '%s' to executor '%s'"
                [AStr (truncate env (json_dumps env payload) (LAMBDA_TRUNCATE_STDOUT env));
                 AStr (id self)] in
  endpoint_invoke env (executor_endpoint self) payload.

End Methods.

(** ** Sample data

    A concrete environment and concrete function versions, used to run the
    definitions above. *)

Definition oserror (c : ExnClass) (message file : string) : exn :=
  {| exn_class := c; exn_str := message;
     strerror := Some message; filename := Some file |}.

(** The shape of [localstack.utils.strings.truncate]: a text longer than
    the limit is cut and marked with three dots. *)
Definition sample_truncate (data : string) (max_length : Z) : string :=
  if (max_length <? Z.of_nat (String.length data))%Z
  then String.substring 0 (Z.to_nat max_length) data ++ "..."
  else data.

(** A rendering of a payload as a JSON object, for keys and values that
    need no escaping. *)
Definition dquote : string := String (ascii_of_nat 34) EmptyString.

Definition sample_json_dumps (payload : gmap string string) : string :=
  "{" ++ str_join ", "
           (List.map (fun kv => dquote ++ fst kv ++ dquote ++ ": "
                                ++ dquote ++ snd kv ++ dquote)
                     (map_to_list payload))
      ++ "}".

(** An environment in which every collaborator succeeds, except for the
    calls whose answer is passed in. *)
Definition sample_env (prebuild : bool) (build shutdown rmtree_answer remove_image_answer : Outcome unit)
    (address : Outcome string) : Env :=
  {| LAMBDA_PREBUILD_IMAGES := prebuild;
     LAMBDA_TRUNCATE_STDOUT := 2000;
     IMAGE_MAPPING := {[ "python3.9" := "python:3.9" ]};
     gettempdir := "/tmp";
     debug_enabled := false;
     json_dumps := sample_json_dumps;
     truncate := sample_truncate;
     perf_counter_ := fun h => Z.of_nat (List.length h);
     mkdir_ := fun _ _ => Returned tt;
     NamedTemporaryFile_ := fun _ => Returned "/tmp/tmpfile0";
     open_ := fun _ _ _ => Returned tt;
     file_write_ := fun _ _ _ => Returned tt;
     file_flush_ := fun _ _ => Returned tt;
     file_exit_ := fun _ _ => Returned tt;
     get_lambda_archive_ := fun _ _ => Returned [];
     unzip_ := fun _ _ _ => Returned tt;
     get_executable_path_ := fun _ => Returned "/var/lib/localstack/aws-lambda-rie";
     shutil_copy_ := fun _ _ _ => Returned tt;
     chmod_ := fun _ _ _ => Returned tt;
     rmtree_ := fun _ _ => rmtree_answer;
     get_docker_image_names_ := fun _ _ => Returned [];
     pull_image_ := fun _ _ => Returned tt;
     build_image_ := fun _ _ _ => build;
     remove_image_ := fun _ _ => remove_image_answer;
     create_container_from_config_ := fun _ _ => Returned tt;
     copy_into_container_ := fun _ _ _ _ => Returned tt;
     start_container_ := fun _ _ => Returned tt;
     stop_container_ := fun _ _ _ => Returned tt;
     remove_container_ := fun _ _ => Returned tt;
     get_container_ipv4_for_network_ := fun _ _ _ => address;
     get_free_tcp_port_ := fun _ => Returned 4566%Z;
     get_container_network_for_lambda_ := fun _ => Returned "bridge";
     get_main_endpoint_from_container_ := fun _ => Returned "172.17.0.1";
     ExecutorEndpoint_ := fun _ _ _ => Returned tt;
     endpoint_start_ := fun _ _ => Returned tt;
     endpoint_shutdown_ := fun _ _ => shutdown;
     endpoint_invoke_ := fun _ _ _ => Returned tt |}.

Definition env_plain : Env :=
  sample_env false (Returned tt) (Returned tt) (Returned tt) (Returned tt)
             (Returned "172.17.0.2").

Definition build_error : exn :=
  new_exn ContainerException "docker build failed".

Definition shutdown_error : exn :=
  new_exn RuntimeError "endpoint already stopped".

Definition missing_directory : exn :=
  oserror FileNotFoundError "No such file or directory" "/tmp/lambda/gone".

Definition image_in_use : exn :=
  new_exn ContainerException "image is being used by a running container".

(** Pre-building is switched on and the image build fails. *)
Definition env_build_fails : Env :=
  sample_env true (Raised build_error) (Returned tt) (Returned tt) (Returned tt)
             (Returned "172.17.0.2").

(** The shutdown of the executor endpoint fails. *)
Definition env_shutdown_fails : Env :=
  sample_env false (Returned tt) (Raised shutdown_error) (Returned tt) (Returned tt)
             (Returned "172.17.0.2").

(** The artifact directory is already gone. *)
Definition env_directory_missing : Env :=
  sample_env false (Returned tt) (Returned tt) (Raised missing_directory) (Returned tt)
             (Returned "172.17.0.2").

(** Pre-building is switched on, the artifact directory is already gone and
    the derived image cannot be removed. *)
Definition env_image_in_use : Env :=
  sample_env true (Returned tt) (Returned tt) (Raised missing_directory)
             (Raised image_in_use) (Returned "172.17.0.2").

Definition sample_version (arn revision : string) (rt : option string) : FunctionVersion :=
  {| fv_id := {| vi_qualified_arn := arn |};
     fv_config := {| runtime := rt; internal_revision := revision; code := 1%positive |};
     qualified_arn := arn |}.

Definition arn_alias : string :=
  "arn:aws:lambda:us-east-1:000000000000:function:f:x_1".

Definition arn_version : string :=
  "arn:aws:lambda:us-east-1:000000000000:function:f_x:1".

Definition arn_latest : string :=
  "arn:aws:lambda:us-east-1:000000000000:function:f:$LATEST".

Definition sample_executor (fv : FunctionVersion) : DockerRuntimeExecutor :=
  {| id := "executor-1";
     function_version := fv;
     service_endpoint := 1%positive;
     ip := None;
     executor_endpoint :=
       {| port := 4566; ep_service_endpoint := 1%positive; container_address := None |} |}.

(** The calls of a history, without their outcomes. *)
Definition calls_of (h : History) : list Call := List.map ev_call h.

(** The part of the history that a run started at [h] has added. *)
Definition since {S A} (h : History) (r : Run S A) : History :=
  drop (List.length h) (calls r).

(** ** More sample data *)

(** The environment [env], except that stopping and removing a container
    answer as given. *)
Definition with_container_teardown (stop_answer remove_answer : Outcome unit) (env : Env) : Env :=
  {| LAMBDA_PREBUILD_IMAGES := LAMBDA_PREBUILD_IMAGES env;
     LAMBDA_TRUNCATE_STDOUT := LAMBDA_TRUNCATE_STDOUT env;
     IMAGE_MAPPING := IMAGE_MAPPING env;
     gettempdir := gettempdir env;
     debug_enabled := debug_enabled env;
     json_dumps := json_dumps env;
     truncate := truncate env;
     perf_counter_ := perf_counter_ env;
     mkdir_ := mkdir_ env;
     NamedTemporaryFile_ := NamedTemporaryFile_ env;
     open_ := open_ env;
     file_write_ := file_write_ env;
     file_flush_ := file_flush_ env;
     file_exit_ := file_exit_ env;
     get_lambda_archive_ := get_lambda_archive_ env;
     unzip_ := unzip_ env;
     get_executable_path_ := get_executable_path_ env;
     shutil_copy_ := shutil_copy_ env;
     chmod_ := chmod_ env;
     rmtree_ := rmtree_ env;
     get_docker_image_names_ := get_docker_image_names_ env;
     pull_image_ := pull_image_ env;
     build_image_ := build_image_ env;
     remove_image_ := remove_image_ env;
     create_container_from_config_ := create_container_from_config_ env;
     copy_into_container_ := copy_into_container_ env;
     start_container_ := start_container_ env;
     stop_container_ := fun _ _ _ => stop_answer;
     remove_container_ := fun _ _ => remove_answer;
     get_container_ipv4_for_network_ := get_container_ipv4_for_network_ env;
     get_free_tcp_port_ := get_free_tcp_port_ env;
     get_container_network_for_lambda_ := get_container_network_for_lambda_ env;
     get_main_endpoint_from_container_ := get_main_endpoint_from_container_ env;
     ExecutorEndpoint_ := ExecutorEndpoint_ env;
     endpoint_start_ := endpoint_start_ env;
     endpoint_shutdown_ := endpoint_shutdown_ env;
     endpoint_invoke_ := endpoint_invoke_ env |}.

Definition container_gone : exn :=
  new_exn NoSuchContainer "No such container: executor-1".

(** The container cannot be stopped. *)
Definition env_stop_container_fails : Env :=
  with_container_teardown (Raised container_gone) (Returned tt) env_plain.

(** The container stops and cannot be removed. *)
Definition env_remove_container_fails : Env :=
  with_container_teardown (Returned tt) (Raised container_gone) env_plain.

Definition interrupted : exn :=
  new_exn RuntimeError "directory removal interrupted".

(** Pre-building is switched on and the removal of the artifact directory
    ends in an exception that is no [OSError]. *)
Definition env_rmtree_interrupted : Env :=
  sample_env true (Returned tt) (Returned tt) (Raised interrupted) (Returned tt)
             (Returned "172.17.0.2").

(** Pre-building is switched on and every collaborator succeeds. *)
Definition env_prebuild : Env :=
  sample_env true (Returned tt) (Returned tt) (Returned tt) (Returned tt)
             (Returned "172.17.0.2").

(** The calls [start] can make. *)
Definition start_call (c : Call) : Prop :=
  match c with
  | Cendpoint_start _ | Cget_container_network_for_lambda
  | Ccreate_container_from_config _ | Cget_executable_path
  | Ccopy_into_container _ _ _ | Cstart_container _
  | Cget_container_ipv4_for_network _ _ => True
  | _ => False
  end.

(** The environment [env], except that the allocation of a port answers as
    given. *)
Definition with_port_allocation (answer : Outcome Z) (env : Env) : Env :=
  {| LAMBDA_PREBUILD_IMAGES := LAMBDA_PREBUILD_IMAGES env;
     LAMBDA_TRUNCATE_STDOUT := LAMBDA_TRUNCATE_STDOUT env;
     IMAGE_MAPPING := IMAGE_MAPPING env;
     gettempdir := gettempdir env;
     debug_enabled := debug_enabled env;
     json_dumps := json_dumps env;
     truncate := truncate env;
     perf_counter_ := perf_counter_ env;
     mkdir_ := mkdir_ env;
     NamedTemporaryFile_ := NamedTemporaryFile_ env;
     open_ := open_ env;
     file_write_ := file_write_ env;
     file_flush_ := file_flush_ env;
     file_exit_ := file_exit_ env;
     get_lambda_archive_ := get_lambda_archive_ env;
     unzip_ := unzip_ env;
     get_executable_path_ := get_executable_path_ env;
     shutil_copy_ := shutil_copy_ env;
     chmod_ := chmod_ env;
     rmtree_ := rmtree_ env;
     get_docker_image_names_ := get_docker_image_names_ env;
     pull_image_ := pull_image_ env;
     build_image_ := build_image_ env;
     remove_image_ := remove_image_ env;
     create_container_from_config_ := create_container_from_config_ env;
     copy_into_container_ := copy_into_container_ env;
     start_container_ := start_container_ env;
     stop_container_ := stop_container_ env;
     remove_container_ := remove_container_ env;
     get_container_ipv4_for_network_ := get_container_ipv4_for_network_ env;
     get_free_tcp_port_ := fun _ => answer;
     get_container_network_for_lambda_ := get_container_network_for_lambda_ env;
     get_main_endpoint_from_container_ := get_main_endpoint_from_container_ env;
     ExecutorEndpoint_ := ExecutorEndpoint_ env;
     endpoint_start_ := endpoint_start_ env;
     endpoint_shutdown_ := endpoint_shutdown_ env;
     endpoint_invoke_ := endpoint_invoke_ env |}.

Definition no_free_port : exn :=
  new_exn Exception "Unable to determine free TCP port".

(** No port can be allocated. *)
Definition env_no_free_port : Env :=
  with_port_allocation (Raised no_free_port) env_plain.

(** The environment [env], except that the local image cache holds the given
    images. *)
Definition with_cached_images (cached : list string) (env : Env) : Env :=
  {| LAMBDA_PREBUILD_IMAGES := LAMBDA_PREBUILD_IMAGES env;
     LAMBDA_TRUNCATE_STDOUT := LAMBDA_TRUNCATE_STDOUT env;
     IMAGE_MAPPING := IMAGE_MAPPING env;
     gettempdir := gettempdir env;
     debug_enabled := debug_enabled env;
     json_dumps := json_dumps env;
     truncate := truncate env;
     perf_counter_ := perf_counter_ env;
     mkdir_ := mkdir_ env;
     NamedTemporaryFile_ := NamedTemporaryFile_ env;
     open_ := open_ env;
     file_write_ := file_write_ env;
     file_flush_ := file_flush_ env;
     file_exit_ := file_exit_ env;
     get_lambda_archive_ := get_lambda_archive_ env;
     unzip_ := unzip_ env;
     get_executable_path_ := get_executable_path_ env;
     shutil_copy_ := shutil_copy_ env;
     chmod_ := chmod_ env;
     rmtree_ := rmtree_ env;
     get_docker_image_names_ := fun _ _ => Returned cached;
     pull_image_ := pull_image_ env;
     build_image_ := build_image_ env;
     remove_image_ := remove_image_ env;
     create_container_from_config_ := create_container_from_config_ env;
     copy_into_container_ := copy_into_container_ env;
     start_container_ := start_container_ env;
     stop_container_ := stop_container_ env;
     remove_container_ := remove_container_ env;
     get_container_ipv4_for_network_ := get_container_ipv4_for_network_ env;
     get_free_tcp_port_ := get_free_tcp_port_ env;
     get_container_network_for_lambda_ := get_container_network_for_lambda_ env;
     get_main_endpoint_from_container_ := get_main_endpoint_from_container_ env;
     ExecutorEndpoint_ := ExecutorEndpoint_ env;
     endpoint_start_ := endpoint_start_ env;
     endpoint_shutdown_ := endpoint_shutdown_ env;
     endpoint_invoke_ := endpoint_invoke_ env |}.

(** The base image of the sample runtime is cached already. *)
Definition env_image_cached : Env :=
  with_cached_images ["amazon/aws-lambda-python:3.9"] env_plain.

(** The calls [prepare_version] can make when pre-building is switched
    off. *)
Definition staging_call (c : Call) : Prop :=
  match c with
  | Cperf_counter | Cmkdir _ true true | CNamedTemporaryFile
  | Cget_lambda_archive _ | Cfile_write _ (Bytes _) | Cfile_flush _
  | Cunzip _ _ | Cfile_exit _ | Cget_docker_image_names false
  | Cpull_image _ | CLog LOG_debug _ _ => True
  | _ => False
  end.


(** * Properties *)

(** ** Strings and paths *)

Example str_replace_arn :
  str_replace "$" "_" (str_replace ":" "_" "arn:aws:lambda:f:$LATEST")
  = "arn_aws_lambda_f__LATEST".
Proof. reflexivity. Qed.

Example str_lower_mixed : str_lower "Fn_A-z09" = "fn_a-z09".
Proof. reflexivity. Qed.

Example Path_of_tmp :
  Path_of "/tmp/lambda/x_1/" = {| root := "/"; parts := ["tmp"; "lambda"; "x_1"] |}.
Proof. reflexivity. Qed.

Example Path_str_code :
  Path_str (Path_div (Path_of "/tmp//lambda/./x_1/") "code") = "/tmp/lambda/x_1/code".
Proof. reflexivity. Qed.

Section StringFacts.

Lemma str_replace_no_old (old new : ascii) (s : string) :
  old <> new -> str_contains old (str_replace old new s) = false.
Proof.
  intros Hne. induction s as [|c s IH]; simpl; [reflexivity|].
  rewrite IH, orb_false_r.
  destruct (Ascii.eqb_spec c old) as [->|Hc].
  - apply Ascii.eqb_neq. congruence.
  - now apply Ascii.eqb_neq.
Qed.

Lemma str_replace_keeps_absent (old new c : ascii) (s : string) :
  c <> new -> str_contains c s = false ->
  str_contains c (str_replace old new s) = false.
Proof.
  intros Hne. induction s as [|d s IH]; simpl; [reflexivity|].
  intros [Hd Hs]%orb_false_elim. rewrite (IH Hs), orb_false_r.
  destruct (Ascii.eqb d old); [|assumption].
  apply Ascii.eqb_neq. congruence.
Qed.

Lemma str_contains_app (c : ascii) (a b : string) :
  str_contains c (a ++ b) = str_contains c a || str_contains c b.
Proof.
  induction a as [|d a IH]; simpl; [reflexivity|].
  now rewrite IH, orb_assoc.
Qed.

Lemma str_append_assoc (a b c : string) : (a ++ b) ++ c = a ++ b ++ c.
Proof.
  induction a as [|d a IH]; [reflexivity|].
  change (String d ((a ++ b) ++ c) = String d (a ++ b ++ c)).
  f_equal. exact IH.
Qed.

Lemma append_inv_head (p a b : string) : p ++ a = p ++ b -> a = b.
Proof. induction p as [|c p IH]; simpl; [auto|]. intros [= H]. auto. Qed.

(** A text is cut in one way only at its last occurrence of a character. *)
Lemma split_at_last (c : ascii) (a a' r r' : string) :
  str_contains c r = false -> str_contains c r' = false ->
  a ++ String c r = a' ++ String c r' -> a = a' /\ r = r'.
Proof.
  intros Hr Hr'. revert a'.
  induction a as [|d a IH]; intros [|d' a']; simpl; intros E;
    injection E; intros; subst.
  - auto.
  - rewrite str_contains_app in Hr. simpl in Hr.
    rewrite Ascii.eqb_refl, orb_true_r in Hr. discriminate.
  - rewrite str_contains_app in Hr'. simpl in Hr'.
    rewrite Ascii.eqb_refl, orb_true_r in Hr'. discriminate.
  - destruct (IH a') as [-> ->]; auto.
Qed.

Lemma str_split_nonempty (sep : ascii) (s : string) : str_split sep s <> [].
Proof.
  destruct s as [|c s]; simpl; [discriminate|].
  destruct (Ascii.eqb c sep); [discriminate|].
  destruct (str_split sep s); discriminate.
Qed.

Lemma str_split_no_sep (sep : ascii) (s : string) :
  str_contains sep s = false -> str_split sep s = [s].
Proof.
  induction s as [|c s IH]; simpl; [reflexivity|].
  intros [Hc Hs]%orb_false_elim. rewrite Hc, (IH Hs). reflexivity.
Qed.

Lemma str_split_app (sep : ascii) (a b : string) :
  str_split sep (a ++ String sep b) = (str_split sep a ++ str_split sep b)%list.
Proof.
  induction a as [|c a IH]; simpl.
  - now rewrite Ascii.eqb_refl.
  - destruct (Ascii.eqb c sep); rewrite IH; [reflexivity|].
    pose proof (str_split_nonempty sep a) as Hne.
    destruct (str_split sep a); [contradiction|reflexivity].
Qed.

Lemma keeps_part_with_underscore (a r : string) :
  keeps_part (a ++ String "_" r) = true.
Proof.
  unfold keeps_part.
  destruct a as [|c a]; simpl; [reflexivity|].
  destruct (Ascii.eqb c "."); [|reflexivity].
  destruct a; reflexivity.
Qed.

(** The components of a path built from a prefix, the component
    [lambda] and one more component without a slash. *)
Lemma Path_of_lambda_parts (tmp x : string) :
  str_contains "/" x = false -> keeps_part x = true ->
  parts (Path_of (tmp ++ "/lambda/" ++ x ++ "/"))
  = (parts (Path_of tmp) ++ ["lambda"; x])%list.
Proof.
  intros Hx Hk. unfold Path_of; simpl parts.
  change (tmp ++ "/lambda/" ++ x ++ "/")
    with (tmp ++ String "/" ("lambda" ++ String "/" (x ++ String "/" ""))).
  rewrite !str_split_app, (str_split_no_sep _ x Hx).
  rewrite !List.filter_app. simpl. rewrite Hk. reflexivity.
Qed.

Lemma sanitized_cons (c : ascii) (s : string) :
  sanitized (String c s) = String (sanitized_chr c) (sanitized s).
Proof. reflexivity. Qed.

Lemma sanitized_chr_inj (c d : ascii) :
  c <> "_"%char -> c <> "$"%char -> d <> "_"%char -> d <> "$"%char ->
  sanitized_chr c = sanitized_chr d -> c = d.
Proof.
  unfold sanitized_chr. intros Hc1 Hc2 Hd1 Hd2.
  destruct (Ascii.eqb_spec c ":") as [->|Hc], (Ascii.eqb_spec d ":") as [->|Hd];
    simpl; try congruence.
  - destruct (Ascii.eqb_spec d "$"); congruence.
  - destruct (Ascii.eqb_spec c "$"); congruence.
  - destruct (Ascii.eqb_spec c "$"), (Ascii.eqb_spec d "$"); congruence.
Qed.

(** Among identities that contain neither an underscore nor a dollar sign,
    sanitizing loses nothing. *)
Lemma sanitized_inj (a b : string) :
  str_contains "_" a = false -> str_contains "$" a = false ->
  str_contains "_" b = false -> str_contains "$" b = false ->
  sanitized a = sanitized b -> a = b.
Proof.
  revert b. induction a as [|c a IH]; intros [|d b]; try discriminate; [reflexivity|].
  simpl str_contains.
  intros [Hc1 Ha1]%orb_false_elim [Hc2 Ha2]%orb_false_elim
         [Hd1 Hb1]%orb_false_elim [Hd2 Hb2]%orb_false_elim.
  rewrite !sanitized_cons. intros E. injection E as Ec Es.
  apply Ascii.eqb_neq in Hc1, Hc2, Hd1, Hd2.
  f_equal; [apply sanitized_chr_inj; assumption | apply IH; assumption].
Qed.

Lemma sanitized_no_slash (a : string) :
  str_contains "/" a = false -> str_contains "/" (sanitized a) = false.
Proof.
  intros H. unfold sanitized.
  apply str_replace_keeps_absent; [discriminate|].
  apply str_replace_keeps_absent; [discriminate|assumption].
Qed.

Lemma sanitized_no_delimiter (a : string) :
  str_contains ":" (sanitized a) = false /\ str_contains "$" (sanitized a) = false.
Proof.
  unfold sanitized. split.
  - apply str_replace_keeps_absent; [discriminate|].
    apply str_replace_no_old. discriminate.
  - apply str_replace_no_old. discriminate.
Qed.

End StringFacts.

(** ** Derived names *)

Section Naming.

Context (env : Env).

Lemma get_path_for_function_parts (fv : FunctionVersion) :
  str_contains "/" (vi_qualified_arn (fv_id fv)) = false ->
  str_contains "/" (internal_revision (fv_config fv)) = false ->
  parts (get_path_for_function env fv)
  = (parts (Path_of (gettempdir env))
     ++ ["lambda";
         (sanitized (vi_qualified_arn (fv_id fv)) ++ "_"
          ++ internal_revision (fv_config fv))%string])%list.
Proof.
  intros Ha Hr. unfold get_path_for_function.
  pose proof (Path_of_lambda_parts (gettempdir env)
    (sanitized (vi_qualified_arn (fv_id fv)) ++ "_" ++ internal_revision (fv_config fv)))
    as P.
  rewrite <- P.
  - now rewrite !str_append_assoc.
  - rewrite str_contains_app, sanitized_no_slash by assumption.
    simpl. assumption.
  - apply keeps_part_with_underscore.
Qed.

Lemma get_path_for_function_eq_iff (fv1 fv2 : FunctionVersion) :
  str_contains "/" (vi_qualified_arn (fv_id fv1)) = false ->
  str_contains "/" (vi_qualified_arn (fv_id fv2)) = false ->
  str_contains "/" (internal_revision (fv_config fv1)) = false ->
  str_contains "/" (internal_revision (fv_config fv2)) = false ->
  str_contains "_" (internal_revision (fv_config fv1)) = false ->
  str_contains "_" (internal_revision (fv_config fv2)) = false ->
  get_path_for_function env fv1 = get_path_for_function env fv2
  <-> sanitized (vi_qualified_arn (fv_id fv1)) = sanitized (vi_qualified_arn (fv_id fv2))
      /\ internal_revision (fv_config fv1) = internal_revision (fv_config fv2).
Proof.
  intros Ha1 Ha2 Hs1 Hs2 Hu1 Hu2. split.
  - intros E. apply (f_equal parts) in E.
    rewrite !get_path_for_function_parts in E by assumption.
    apply app_inv_head in E. injection E as E.
    now apply (split_at_last "_") in E.
  - intros [Ea Er]. unfold get_path_for_function. now rewrite Ea, Er.
Qed.

Lemma get_image_name_for_function_eq_iff (fv1 fv2 : FunctionVersion) :
  get_image_name_for_function fv1 = get_image_name_for_function fv2
  <-> str_lower (sanitized (vi_qualified_arn (fv_id fv1)))
      = str_lower (sanitized (vi_qualified_arn (fv_id fv2))).
Proof.
  unfold get_image_name_for_function. split.
  - apply append_inv_head.
  - now intros ->.
Qed.

End Naming.

(** C2, as stated, fails: the identity [function:f:x_1] (function [f],
    alias [x_1]) and the identity [function:f_x:1] (function [f_x],
    version 1) are distinct, and with the same revision they are given the
    same artifact path and the same image name. *)
Lemma derived_names_collide :
  (arn_alias, "0") <> (arn_version, "0")
  /\ get_path_for_function env_plain (sample_version arn_alias "0" (Some "python3.9"))
     = get_path_for_function env_plain (sample_version arn_version "0" (Some "python3.9"))
  /\ get_image_name_for_function (sample_version arn_alias "0" (Some "python3.9"))
     = get_image_name_for_function (sample_version arn_version "0" (Some "python3.9")).
Proof. split; [discriminate|]. split; reflexivity. Qed.

(** C2, amended: the artifact path and the image name are functions of
    the identity and the revision in which every colon and dollar sign of
    the identity has become an underscore, and they tell pairs apart only up
    to that replacement.  For identities without a slash and revisions
    without a slash or an underscore, two pairs have the same path exactly
    when their revisions are equal and their identities are equal after the
    replacement; two pairs have the same image name exactly when their
    identities are equal after the replacement and lower-casing, whatever
    their revisions.  Identities that contain neither an underscore nor a
    dollar sign are equal when they are equal after the replacement. *)
Theorem derived_names_injective_up_to_sanitizing
    (env : Env) (fv1 fv2 : FunctionVersion) :
  str_contains "/" (vi_qualified_arn (fv_id fv1)) = false ->
  str_contains "/" (vi_qualified_arn (fv_id fv2)) = false ->
  str_contains "/" (internal_revision (fv_config fv1)) = false ->
  str_contains "/" (internal_revision (fv_config fv2)) = false ->
  str_contains "_" (internal_revision (fv_config fv1)) = false ->
  str_contains "_" (internal_revision (fv_config fv2)) = false ->
  (get_path_for_function env fv1 = get_path_for_function env fv2
   <-> sanitized (vi_qualified_arn (fv_id fv1)) = sanitized (vi_qualified_arn (fv_id fv2))
       /\ internal_revision (fv_config fv1) = internal_revision (fv_config fv2))
  /\ (get_image_name_for_function fv1 = get_image_name_for_function fv2
      <-> str_lower (sanitized (vi_qualified_arn (fv_id fv1)))
          = str_lower (sanitized (vi_qualified_arn (fv_id fv2))))
  /\ str_contains ":" (sanitized (vi_qualified_arn (fv_id fv1))) = false
  /\ str_contains "$" (sanitized (vi_qualified_arn (fv_id fv1))) = false
  /\ (str_contains "_" (vi_qualified_arn (fv_id fv1)) = false ->
      str_contains "$" (vi_qualified_arn (fv_id fv1)) = false ->
      str_contains "_" (vi_qualified_arn (fv_id fv2)) = false ->
      str_contains "$" (vi_qualified_arn (fv_id fv2)) = false ->
      sanitized (vi_qualified_arn (fv_id fv1)) = sanitized (vi_qualified_arn (fv_id fv2)) ->
      vi_qualified_arn (fv_id fv1) = vi_qualified_arn (fv_id fv2)).
Proof.
  intros Ha1 Ha2 Hs1 Hs2 Hu1 Hu2.
  split; [now apply get_path_for_function_eq_iff|].
  split; [apply get_image_name_for_function_eq_iff|].
  destruct (sanitized_no_delimiter (vi_qualified_arn (fv_id fv1))) as [Hc Hd].
  repeat split; try assumption.
  apply sanitized_inj.
Qed.

Lemma derived_names_injective_up_to_sanitizing_witness :
  (get_path_for_function env_plain (sample_version arn_alias "7" (Some "python3.9"))
   = get_path_for_function env_plain (sample_version arn_latest "7" (Some "python3.9"))
   <-> sanitized arn_alias = sanitized arn_latest /\ "7" = "7")
  /\ (get_image_name_for_function (sample_version arn_alias "7" (Some "python3.9"))
      = get_image_name_for_function (sample_version arn_latest "7" (Some "python3.9"))
      <-> str_lower (sanitized arn_alias) = str_lower (sanitized arn_latest)).
Proof.
  pose proof (derived_names_injective_up_to_sanitizing env_plain
                (sample_version arn_alias "7" (Some "python3.9"))
                (sample_version arn_latest "7" (Some "python3.9"))
                eq_refl eq_refl eq_refl eq_refl eq_refl eq_refl) as [P [I _]].
  exact (conj P I).
Defined.

(** ** Running computations step by step *)

Local Open Scope list_scope.

Section Running.

Context {S A B : Type}.

Lemma bind_ret (a : A) (k : A -> M S B) s h : bind (ret a) k s h = k a s h.
Proof. reflexivity. Qed.

Lemma bind_raise (e : exn) (k : A -> M S B) s h :
  bind (raise e) k s h = mkRun (Raised e) s h.
Proof. reflexivity. Qed.

Lemma bind_lift (o : Outcome A) (k : A -> M S B) s h :
  bind (lift o) k s h
  = match o with
    | Returned a => k a s h
    | Raised e => mkRun (Raised e) s h
    end.
Proof. unfold bind, lift. simpl. destruct o; reflexivity. Qed.

Lemma bind_lift_returned (a : A) (k : A -> M S B) s h :
  bind (lift (Returned a)) k s h = k a s h.
Proof. reflexivity. Qed.

Lemma bind_lift_raised (e : exn) (k : A -> M S B) s h :
  bind (lift (Raised e)) k s h = mkRun (Raised e) s h.
Proof. reflexivity. Qed.

Lemma bind_get_self (k : S -> M S B) s h : bind get_self k s h = k s s h.
Proof. reflexivity. Qed.

Lemma bind_set_self (s' : S) (k : unit -> M S B) s h :
  bind (set_self s') k s h = k tt s' h.
Proof. reflexivity. Qed.

Lemma run_extern (c : Call) (f : History -> Outcome A) (s : S) h :
  extern c f s h
  = match f h with
    | Returned a => mkRun (Returned a) s (h ++ [mkEvent c None])
    | Raised e => mkRun (Raised e) s (h ++ [mkEvent c (Some e)])
    end.
Proof. unfold extern. destruct (f h); reflexivity. Qed.

Lemma bind_extern (c : Call) (f : History -> Outcome A) (k : A -> M S B) s h :
  bind (extern c f) k s h
  = match f h with
    | Returned a => k a s (h ++ [mkEvent c None])
    | Raised e => mkRun (Raised e) s (h ++ [mkEvent c (Some e)])
    end.
Proof. unfold bind. rewrite run_extern. destruct (f h); reflexivity. Qed.

(** Calls that cannot fail: logging and reading the clock. *)
Lemma run_extern_returned (c : Call) (g : History -> A) (s : S) h :
  extern c (fun h' => Returned (g h')) s h
  = mkRun (Returned (g h)) s (h ++ [mkEvent c None]).
Proof. reflexivity. Qed.

Lemma bind_extern_returned (c : Call) (g : History -> A) (k : A -> M S B) s h :
  bind (extern c (fun h' => Returned (g h'))) k s h
  = k (g h) s (h ++ [mkEvent c None]).
Proof. reflexivity. Qed.

Lemma run_try_except_extern (c : Call) (f : History -> Outcome A) (cls : ExnClass)
    (handler : exn -> M S A) s h :
  try_except (extern c f) cls handler s h
  = match f h with
    | Returned a => mkRun (Returned a) s (h ++ [mkEvent c None])
    | Raised e =>
        if isinstance e cls then handler e s (h ++ [mkEvent c (Some e)])
        else mkRun (Raised e) s (h ++ [mkEvent c (Some e)])
    end.
Proof. unfold try_except. rewrite run_extern. destruct (f h); reflexivity. Qed.

Lemma bind_try_except_extern (c : Call) (f : History -> Outcome A) (cls : ExnClass)
    (handler : exn -> M S A) (k : A -> M S B) s h :
  bind (try_except (extern c f) cls handler) k s h
  = match f h with
    | Returned a => k a s (h ++ [mkEvent c None])
    | Raised e =>
        if isinstance e cls then bind (handler e) k s (h ++ [mkEvent c (Some e)])
        else mkRun (Raised e) s (h ++ [mkEvent c (Some e)])
    end.
Proof.
  unfold bind at 1. rewrite run_try_except_extern.
  destruct (f h); [reflexivity|]. destruct (isinstance _ _); reflexivity.
Qed.

Lemma bind_finally_extern (c : Call) (f : History -> Outcome A) (fin : M S unit)
    (k : A -> M S B) s h :
  bind (finally (extern c f) fin) k s h
  = match f h with
    | Returned a => bind (bind fin (fun _ => ret a)) k s (h ++ [mkEvent c None])
    | Raised e => bind (bind fin (fun _ => raise e)) k s (h ++ [mkEvent c (Some e)])
    end.
Proof.
  unfold bind, finally. rewrite run_extern.
  destruct (f h); simpl; destruct (result (fin _ _)); reflexivity.
Qed.

End Running.

Lemma bind_assoc {S A B C} (m : M S A) (k1 : A -> M S B) (k2 : B -> M S C) s h :
  bind (bind m k1) k2 s h = bind m (fun x => bind (k1 x) k2) s h.
Proof. unfold bind. destruct (result (m s h)); reflexivity. Qed.

Lemma bind_finally_bind_extern {S A B C} (c : Call) (f : History -> Outcome A)
    (kb : A -> M S B) (fin : M S unit) (k : B -> M S C) s h :
  bind (finally (bind (extern c f) kb) fin) k s h
  = match f h with
    | Returned a => bind (finally (kb a) fin) k s (h ++ [mkEvent c None])
    | Raised e => bind (bind fin (fun _ => raise e)) k s (h ++ [mkEvent c (Some e)])
    end.
Proof.
  unfold bind, finally, extern. cbv zeta. cbn [result final calls].
  destruct (f h); cbn [result final calls raised_of]; [reflexivity|].
  destruct (result (fin _ _)); reflexivity.
Qed.

Lemma isinstance_Exception (e : exn) : isinstance e Exception = true.
Proof. destruct e as [[] ? ? ?]; reflexivity. Qed.

Lemma since_app {S A} (h l : History) (o : Outcome A) (s : S) :
  since h (mkRun o s (h ++ l)) = l.
Proof. unfold since. simpl. apply drop_app_length. Qed.

Lemma since_nil {S A} (h : History) (o : Outcome A) (s : S) :
  since h (mkRun o s h) = [].
Proof. unfold since. simpl. apply drop_all. Qed.

(** The collaborators are unfolded to [extern]; the run recorded in a
    hypothesis is then advanced call by call, with a case distinction on
    every answer. *)
Ltac expose H :=
  unfold with_, LOG, perf_counter, mkdir, NamedTemporaryFile, open, file_write,
    file_flush, file_exit, get_lambda_archive, unzip, get_runtime_client_path,
    get_executable_path, shutil_copy, chmod, rmtree, get_docker_image_names,
    pull_image, build_image, remove_image, create_container_from_config,
    copy_into_container, start_container, stop_container, remove_container,
    get_container_ipv4_for_network, get_free_tcp_port,
    get_container_network_for_lambda, get_main_endpoint_from_container,
    new_ExecutorEndpoint, endpoint_start, endpoint_shutdown, endpoint_invoke in H.

Ltac answer H :=
  match type of H with
  | context [match ?o with Returned _ => _ | Raised _ => _ end] =>
      destruct o as [?|?] eqn:?
  end.

Ltac advance H :=
  first
    [ rewrite bind_assoc in H
    | rewrite bind_ret in H
    | rewrite bind_raise in H
    | rewrite bind_get_self in H
    | rewrite bind_set_self in H
    | rewrite bind_extern_returned in H
    | rewrite run_extern_returned in H
    | rewrite bind_extern in H; answer H
    | rewrite bind_lift_returned in H
    | rewrite bind_lift_raised in H
    | rewrite bind_lift in H; answer H
    | rewrite bind_try_except_extern in H; answer H
    | rewrite bind_finally_extern in H; answer H
    | rewrite bind_finally_bind_extern in H; answer H
    | rewrite run_try_except_extern in H; answer H
    | rewrite run_extern in H; answer H
    | rewrite isinstance_Exception in H
    | match type of H with
      | context [if ?b then _ else _] => destruct b eqn:?
      end ].

Ltac exec H :=
  expose H; repeat advance H;
  unfold ret, raise, lift, set_self, get_self in H;
  cbn [id function_version service_endpoint ip executor_endpoint
       port ep_service_endpoint container_address] in H.

Ltac flatten := rewrite <- ?app_assoc; cbn [app]; rewrite ?since_app, ?since_nil.

(** ** Image selection and the copy step of [start] *)

(** C1, as stated, fails: with pre-building switched on and an image build
    that fails, [prepare_version] returns normally, and the container that
    [start] then creates is still given the derived per-version image, not
    the base image [amazon/aws-lambda-python:3.9]; nothing is copied into
    it. *)
Lemma failed_prebuild_still_selects_derived_image :
  let fv := sample_version arn_latest "0" (Some "python3.9") in
  let prepared := prepare_version env_build_fails fv tt [] in
  let started := start env_build_fails ∅ (sample_executor fv) (calls prepared) in
  result prepared = Returned tt
  /\ In {| ev_call :=
             Cbuild_image
               "/tmp/lambda/arn_aws_lambda_us-east-1_000000000000_function_f__LATEST_0/Dockerfile"
               "localstack/lambda-arn_aws_lambda_us-east-1_000000000000_function_f__latest";
           ev_raised := Some build_error |}
        (calls prepared)
  /\ get_image_for_runtime env_build_fails (Some "python3.9")
     = Returned "amazon/aws-lambda-python:3.9"%string
  /\ result started = Returned tt
  /\ calls_of (since (calls prepared) started)
     = [Cendpoint_start (executor_endpoint (sample_executor fv));
        Cget_container_network_for_lambda;
        Ccreate_container_from_config
          {| image_name :=
               "localstack/lambda-arn_aws_lambda_us-east-1_000000000000_function_f__latest";
             name := "executor-1";
             env_vars := ∅;
             network := "bridge";
             entrypoint := "/var/rapid/init" |};
        Cstart_container "executor-1";
        Cget_container_ipv4_for_network "executor-1" "bridge"].
Proof.
  cbv zeta. split; [reflexivity|].
  split; [vm_compute; tauto|].
  repeat split; reflexivity.
Qed.

(** C1, amended: the image that [start] hands to the container client is
    the derived per-version image exactly when pre-building is switched on,
    whether or not the pre-build succeeded, and the base image of the
    runtime otherwise; a [start] that returns has copied the init binary and
    the staged code tree into the container, between creating and starting
    it, exactly when pre-building is switched off. *)
Theorem start_image_follows_prebuild_flag
    (env : Env) (env_vars : gmap string string)
    (self : DockerRuntimeExecutor) (h : History) :
  (forall cfg,
      In (Ccreate_container_from_config cfg)
         (calls_of (since h (start env env_vars self h))) ->
      if LAMBDA_PREBUILD_IMAGES env
      then image_name cfg = get_image_name_for_function (function_version self)
      else get_image_for_runtime env (runtime (fv_config (function_version self)))
           = Returned (image_name cfg))
  /\ (result (start env env_vars self h) = Returned tt ->
      exists net exe image,
        (if LAMBDA_PREBUILD_IMAGES env
         then image = get_image_name_for_function (function_version self)
         else get_image_for_runtime env (runtime (fv_config (function_version self)))
              = Returned image)
        /\ calls_of (since h (start env env_vars self h))
           = [Cendpoint_start (executor_endpoint self);
              Cget_container_network_for_lambda;
              Ccreate_container_from_config
                {| image_name := image; name := id self; env_vars := env_vars;
                   network := net; entrypoint := RAPID_ENTRYPOINT |}]
             ++ (if LAMBDA_PREBUILD_IMAGES env then []
                 else [Cget_executable_path;
                       Ccopy_into_container (id self) (Path_str (Path_of exe))
                         RAPID_ENTRYPOINT;
                       Ccopy_into_container (id self)
                         (Path_str (get_code_path_for_function env (function_version self))
                          ++ "/.")%string
                         "/var/task"])
             ++ [Cstart_container (id self);
                 Cget_container_ipv4_for_network (id self) net]).
Proof.
  remember (start env env_vars self h) as r eqn:Hr.
  unfold start, get_image, _get_network_for_executor, set_ip, set_container_address in Hr.
  exec Hr.
  all: subst r; flatten; cbn [calls_of List.map ev_call result].
  all: split; [intros cfg Hin | intros Hres; try discriminate Hres].
  all: try (cbn [In] in Hin; intuition discriminate).
  all: try (cbn [In] in Hin;
            repeat (destruct Hin as [Hin|Hin]; try discriminate Hin);
            try contradiction; injection Hin as <-; cbn [image_name];
            (reflexivity || assumption)).
  all: try discriminate.
  - eexists. exists EmptyString. eexists. split; reflexivity.
  - do 3 eexists. split; reflexivity.
Qed.

Lemma start_image_follows_prebuild_flag_witness :
  exists net exe image,
    get_image_for_runtime env_plain (Some "python3.9") = Returned image
    /\ calls_of (since [] (start env_plain ∅
                             (sample_executor (sample_version arn_latest "0" (Some "python3.9")))
                             []))
       = [Cendpoint_start
            (executor_endpoint
               (sample_executor (sample_version arn_latest "0" (Some "python3.9"))));
          Cget_container_network_for_lambda;
          Ccreate_container_from_config
            {| image_name := image; name := "executor-1"; env_vars := ∅;
               network := net; entrypoint := RAPID_ENTRYPOINT |};
          Cget_executable_path;
          Ccopy_into_container "executor-1" (Path_str (Path_of exe)) RAPID_ENTRYPOINT;
          Ccopy_into_container "executor-1"
            "/tmp/lambda/arn_aws_lambda_us-east-1_000000000000_function_f__LATEST_0/code/."
            "/var/task";
          Cstart_container "executor-1";
          Cget_container_ipv4_for_network "executor-1" net].
Proof.
  destruct (start_image_follows_prebuild_flag env_plain ∅
              (sample_executor (sample_version arn_latest "0" (Some "python3.9"))) [])
    as [_ H].
  exact (H eq_refl).
Defined.

(** ** The address of the container *)

Lemma run_get_address (self : DockerRuntimeExecutor) (h : History) :
  get_address self h
  = mkRun match ip self with
          | None => Raised (address_unknown self)
          | Some EmptyString => Raised (address_unknown self)
          | Some address => Returned address
          end self h.
Proof.
  unfold get_address. rewrite bind_get_self.
  destruct (ip self) as [[|c a]|]; reflexivity.
Qed.

Lemma run___init__ {S} (env : Env) (name : string) (fv : FunctionVersion)
    (se : ServiceEndpoint) (s : S) (h : History) (obj : DockerRuntimeExecutor) :
  result (__init__ env name fv se s h) = Returned obj ->
  id obj = name /\ function_version obj = fv /\ ip obj = None
  /\ container_address (executor_endpoint obj) = None.
Proof.
  remember (__init__ env name fv se s h) as r eqn:Hr.
  unfold __init__, _build_executor_endpoint in Hr. exec Hr.
  all: subst r; cbn [result]; intros E; try discriminate E.
  injection E as <-. repeat split.
Qed.

(** C3: on an executor whose address has not been stored, [get_address]
    raises the [LambdaRuntimeException] that names the executor; that is so
    for every freshly constructed executor, and it stays so after a [start]
    that raised.  After a [start] that returned, the address the container
    client resolved is stored in the executor and in its endpoint, and
    [get_address] returns it when it is not empty. *)
Theorem get_address_needs_started_executor
    (env : Env) (env_vars : gmap string string)
    (self : DockerRuntimeExecutor) (h : History) :
  ip self = None ->
  result (get_address self h) = Raised (address_unknown self)
  /\ match result (start env env_vars self h) with
     | Raised _ =>
         result (get_address (final (start env env_vars self h))
                             (calls (start env env_vars self h)))
         = Raised (address_unknown self)
     | Returned _ =>
         exists h' net address,
           get_container_ipv4_for_network_ env h' (id self) net = Returned address
           /\ ip (final (start env env_vars self h)) = Some address
           /\ container_address (executor_endpoint (final (start env env_vars self h)))
              = Some address
           /\ (address <> EmptyString ->
               result (get_address (final (start env env_vars self h))
                                   (calls (start env env_vars self h)))
               = Returned address)
     end
  /\ (forall (S : Type) (s : S) name fv se h0 obj h1,
         result (__init__ env name fv se s h0) = Returned obj ->
         result (get_address obj h1) = Raised (address_unknown obj)).
Proof.
  intros Hip. split; [|split].
  - rewrite run_get_address, Hip. reflexivity.
  - remember (start env env_vars self h) as r eqn:Hr.
    unfold start, get_image, _get_network_for_executor, set_ip, set_container_address in Hr.
    exec Hr.
    all: subst r; cbn [result final calls].
    all: try (rewrite run_get_address, Hip; reflexivity).
    all: eexists _, _, _; split; [eassumption|]; repeat split.
    all: intros Hne; rewrite run_get_address; cbn [ip];
      match goal with |- context [match ?a with EmptyString => _ | String _ _ => _ end] =>
        destruct a; [contradiction|reflexivity] end.
  - intros S s name fv se h0 obj h1 Hobj.
    apply run___init__ in Hobj as (_ & _ & Hnone & _).
    rewrite run_get_address, Hnone. reflexivity.
Qed.

Lemma get_address_needs_started_executor_witness :
  result (get_address (sample_executor (sample_version arn_latest "0" (Some "python3.9"))) [])
  = Raised (new_exn LambdaRuntimeException "IP address of executor 'executor-1' unknown").
Proof.
  exact (proj1 (get_address_needs_started_executor env_plain ∅
                  (sample_executor (sample_version arn_latest "0" (Some "python3.9")))
                  [] eq_refl)).
Defined.

(** ** Stopping an executor *)

(** C4: when stopping and removing the container succeed, [stop] returns
    normally whatever the shutdown of the executor endpoint does; an
    exception of the shutdown is recorded in one debug log line and goes no
    further. *)
Theorem stop_survives_endpoint_shutdown_failure
    (env : Env) (self : DockerRuntimeExecutor) (h : History) :
  stop_container_ env h (id self) 5 = Returned tt ->
  remove_container_ env (h ++ [mkEvent (Cstop_container (id self) 5) None]) (id self)
  = Returned tt ->
  result (stop env self h) = Returned tt
  /\ since h (stop env self h)
     = [mkEvent (Cstop_container (id self) 5) None;
        mkEvent (Cremove_container (id self)) None]
       ++ match endpoint_shutdown_ env
                  (h ++ [mkEvent (Cstop_container (id self) 5) None;
                         mkEvent (Cremove_container (id self)) None])
                  (executor_endpoint self) with
          | Returned _ => [mkEvent (Cendpoint_shutdown (executor_endpoint self)) None]
          | Raised e =>
              [mkEvent (Cendpoint_shutdown (executor_endpoint self)) (Some e);
               mkEvent
                 (CLog LOG_debug
                    "Error while stopping executor endpoint for lambda %s, error: %s"
                    [AStr (qualified_arn (function_version self)); AExn e])
                 None]
          end.
Proof.
  intros Hstop Hremove.
  remember (stop env self h) as r eqn:Hr.
  unfold stop in Hr. expose Hr.
  rewrite bind_get_self, bind_extern, Hstop, bind_extern, Hremove in Hr.
  rewrite run_try_except_extern in Hr. rewrite <- app_assoc in Hr. cbn [app] in Hr.
  destruct (endpoint_shutdown_ env _ _) as [[]|e].
  - subst r. flatten. split; reflexivity.
  - rewrite isinstance_Exception, run_extern_returned in Hr.
    subst r. flatten. split; reflexivity.
Qed.

Lemma stop_survives_endpoint_shutdown_failure_witness :
  result (stop env_shutdown_fails
               (sample_executor (sample_version arn_latest "0" (Some "python3.9"))) [])
  = Returned tt.
Proof.
  exact (proj1 (stop_survives_endpoint_shutdown_failure env_shutdown_fails
                  (sample_executor (sample_version arn_latest "0" (Some "python3.9")))
                  [] eq_refl eq_refl)).
Defined.

(** A [stop] changes no field of the executor. *)
Lemma stop_final (env : Env) (self : DockerRuntimeExecutor) (h : History) :
  final (stop env self h) = self.
Proof.
  remember (stop env self h) as r eqn:Hr.
  unfold stop in Hr. exec Hr.
  all: subst r; reflexivity.
Qed.

(** C9: [stop] leaves the executor as it was, the stored address included:
    whatever the container client and the endpoint answer, [get_address]
    gives after [stop] what it gave before, and an address that [start] has
    stored is still returned. *)
Theorem stop_keeps_address
    (env : Env) (self : DockerRuntimeExecutor) (h : History) :
  ip (final (stop env self h)) = ip self
  /\ result (get_address (final (stop env self h)) (calls (stop env self h)))
     = result (get_address self h)
  /\ (forall address,
         ip self = Some address -> address <> EmptyString ->
         result (get_address (final (stop env self h)) (calls (stop env self h)))
         = Returned address).
Proof.
  rewrite stop_final. split; [reflexivity|].
  rewrite !run_get_address. split; [reflexivity|].
  intros address -> Hne. cbn [result].
  destruct address; [contradiction|reflexivity].
Qed.

Lemma stop_keeps_address_witness :
  result (get_address
            (final (stop env_plain
                      (final (start env_plain ∅
                                (sample_executor
                                   (sample_version arn_latest "0" (Some "python3.9")))
                                []))
                      []))
            [])
  = Returned "172.17.0.2"%string.
Proof.
  pose proof (stop_keeps_address env_plain
                (final (start env_plain ∅
                          (sample_executor
                             (sample_version arn_latest "0" (Some "python3.9")))
                          []))
                []) as (_ & _ & H).
  rewrite stop_final in *.
  rewrite !run_get_address in *.
  apply (H "172.17.0.2"%string); [reflexivity|discriminate].
Defined.

(** ** Invocation *)

(** C8: [invoke] makes two calls, a debug log line that carries the
    truncated rendering of the payload, and the call of the endpoint's
    [invoke] with the payload itself; the executor is unchanged and the
    outcome is the endpoint's. *)
Theorem invoke_forwards_payload_unmodified
    (env : Env) (payload : gmap string string)
    (self : DockerRuntimeExecutor) (h : History) :
  calls (invoke env payload self h)
  = h ++ [mkEvent
            (CLog LOG_debug "Sending invoke-payload '%s' to executor '%s'"
               [AStr (truncate env (json_dumps env payload) (LAMBDA_TRUNCATE_STDOUT env));
                AStr (id self)])
            None;
          mkEvent (Cendpoint_invoke (executor_endpoint self) payload)
            (raised_of (result (invoke env payload self h)))]
  /\ result (invoke env payload self h)
     = endpoint_invoke_ env
         (h ++ [mkEvent
                  (CLog LOG_debug "Sending invoke-payload '%s' to executor '%s'"
                     [AStr (truncate env (json_dumps env payload)
                              (LAMBDA_TRUNCATE_STDOUT env));
                      AStr (id self)])
                  None])
         (executor_endpoint self) payload
  /\ final (invoke env payload self h) = self.
Proof.
  unfold invoke, LOG, endpoint_invoke.
  rewrite bind_get_self, bind_extern_returned.
  unfold extern. cbn [result final calls].
  rewrite <- app_assoc. repeat split.
Qed.

(** ** Preparing a version *)

(** C5: when the image build of the pre-build step raises, [prepare_version]
    returns normally.  All calls made before the build (staging the code,
    looking up and pulling the base image, writing the build descriptor)
    have succeeded and stay in the history; the build is followed by one
    log line for the failure, [LOG.exception] when debug logging is enabled
    and [LOG.error] with the exception otherwise, and by the closing timing
    line. *)
Theorem prepare_version_survives_build_failure
    {S : Type} (env : Env) (fv : FunctionVersion) (s : S) (h : History)
    (p n : string) (e : exn) :
  In (mkEvent (Cbuild_image p n) (Some e)) (since h (prepare_version env fv s h)) ->
  result (prepare_version env fv s h) = Returned tt
  /\ LAMBDA_PREBUILD_IMAGES env = true
  /\ p = Path_str (Path_div (get_path_for_function env fv) "Dockerfile")
  /\ n = get_image_name_for_function fv
  /\ exists before t0 t1,
       since h (prepare_version env fv s h)
       = before
         ++ [mkEvent (Cbuild_image p n) (Some e);
             mkEvent
               (if debug_enabled env
                then CLog LOG_exception
                       "Error while building prebuilt lambda image for '%s'"
                       [AStr (qualified_arn fv)]
                else CLog LOG_error
                       "Error while building prebuilt lambda image for '%s', Error: %s"
                       [AStr (qualified_arn fv); AExn e])
               None;
             mkEvent Cperf_counter None;
             mkEvent (CLog LOG_debug "Version preparation took %0.2fms"
                        [AElapsedMs t0 t1]) None]
       /\ Forall (fun ev => ev_raised ev = None) before.
Proof.
  remember (prepare_version env fv s h) as r eqn:Hr.
  unfold prepare_version, prepare_image in Hr.
  exec Hr.
  all: subst r; flatten; cbn [result].
  all: intros Hin; cbn [In] in Hin.
  all: repeat (destruct Hin as [Hin|Hin]; [try discriminate Hin|]); try contradiction.
  all: injection Hin as <- <- <-.
  all: repeat (split; [reflexivity|]).
  all: match goal with
       | |- exists before t0 t1, ?l = _ /\ _ =>
           exists (firstn (List.length l - 4) l)
       end.
  all: cbn [List.length Nat.sub firstn]; do 2 eexists.
  all: split; [reflexivity | repeat constructor].
Qed.

Lemma prepare_version_survives_build_failure_witness :
  result (prepare_version env_build_fails
            (sample_version arn_latest "0" (Some "python3.9")) tt [])
  = Returned tt.
Proof.
  refine (proj1 (prepare_version_survives_build_failure env_build_fails
                   (sample_version arn_latest "0" (Some "python3.9")) tt []
                   "/tmp/lambda/arn_aws_lambda_us-east-1_000000000000_function_f__LATEST_0/Dockerfile"
                   "localstack/lambda-arn_aws_lambda_us-east-1_000000000000_function_f__latest"
                   build_error _)).
  vm_compute. tauto.
Defined.

(** ** Cleaning up a version *)

(** C6: an [OSError] of the recursive removal of the artifact directory,
    the [FileNotFoundError] of a missing directory included, is recorded in
    one debug log line and goes no further: with pre-building switched off
    [cleanup_version] then returns normally.  With pre-building switched on
    the derived image is removed next, and the outcome of [cleanup_version]
    is the outcome of that removal, so an exception of it reaches the
    caller. *)
Theorem cleanup_version_swallows_directory_errors_only
    {S : Type} (env : Env) (fv : FunctionVersion) (s : S) (h : History) (e : exn) :
  rmtree_ env h (get_path_for_function env fv) = Raised e ->
  isinstance e OSError = true ->
  (LAMBDA_PREBUILD_IMAGES env = false ->
   result (cleanup_version env fv s h) = Returned tt
   /\ since h (cleanup_version env fv s h)
      = [mkEvent (Crmtree (get_path_for_function env fv)) (Some e);
         mkEvent
           (CLog LOG_debug
              "Could not cleanup function %s due to error %s while deleting file %s"
              [AStr (qualified_arn fv); AOptStr (strerror e); AOptStr (filename e)])
           None])
  /\ (LAMBDA_PREBUILD_IMAGES env = true ->
      result (cleanup_version env fv s h)
      = remove_image_ env
          (h ++ [mkEvent (Crmtree (get_path_for_function env fv)) (Some e);
                 mkEvent
                   (CLog LOG_debug
                      "Could not cleanup function %s due to error %s while deleting file %s"
                      [AStr (qualified_arn fv); AOptStr (strerror e); AOptStr (filename e)])
                   None])
          (get_image_name_for_function fv)
      /\ calls_of (since h (cleanup_version env fv s h))
         = [Crmtree (get_path_for_function env fv);
            CLog LOG_debug
              "Could not cleanup function %s due to error %s while deleting file %s"
              [AStr (qualified_arn fv); AOptStr (strerror e); AOptStr (filename e)];
            Cremove_image (get_image_name_for_function fv)])
  /\ (forall (h' : History) (e' : exn),
         rmtree_ env h' (get_path_for_function env fv) = Returned tt ->
         LAMBDA_PREBUILD_IMAGES env = true ->
         remove_image_ env
           (h' ++ [mkEvent (Crmtree (get_path_for_function env fv)) None])
           (get_image_name_for_function fv) = Raised e' ->
         result (cleanup_version env fv s h') = Raised e').
Proof.
  intros Hrm Hos. split; [|split].
  - intros Hoff.
    remember (cleanup_version env fv s h) as r eqn:Hr.
    unfold cleanup_version in Hr. expose Hr.
    rewrite bind_try_except_extern, Hrm, Hos, bind_extern_returned, Hoff in Hr.
    unfold ret in Hr. subst r. flatten. split; reflexivity.
  - intros Hon.
    remember (cleanup_version env fv s h) as r eqn:Hr.
    unfold cleanup_version in Hr. expose Hr.
    rewrite bind_try_except_extern, Hrm, Hos, bind_extern_returned, Hon in Hr.
    rewrite run_extern in Hr. rewrite <- app_assoc in Hr. cbn [app] in Hr.
    destruct (remove_image_ env _ _) as [[]|e2]; subst r; flatten; split; reflexivity.
  - intros h' e' Hrm' Hon Himg.
    remember (cleanup_version env fv s h') as r eqn:Hr.
    unfold cleanup_version in Hr. expose Hr.
    rewrite bind_try_except_extern, Hrm', Hon, run_extern, Himg in Hr.
    subst r. reflexivity.
Qed.

Lemma cleanup_version_swallows_directory_errors_only_witness :
  result (cleanup_version env_directory_missing
            (sample_version arn_latest "0" (Some "python3.9")) tt [])
  = Returned tt
  /\ result (cleanup_version env_image_in_use
               (sample_version arn_latest "0" (Some "python3.9")) tt [])
     = Raised image_in_use.
Proof.
  split.
  - exact (proj1 (proj1 (cleanup_version_swallows_directory_errors_only
                           env_directory_missing
                           (sample_version arn_latest "0" (Some "python3.9")) tt []
                           missing_directory eq_refl eq_refl)
                        eq_refl)).
  - exact (proj1 (proj1 (proj2 (cleanup_version_swallows_directory_errors_only
                                  env_image_in_use
                                  (sample_version arn_latest "0" (Some "python3.9")) tt []
                                  missing_directory eq_refl eq_refl))
                        eq_refl)).
Defined.

(** ** The image resolver *)

(** C7: [get_image_for_runtime] is a function of the runtime and the
    mapping table alone.  For a runtime that the table maps to a postfix it
    returns the image prefix followed by the postfix (the postfixes of the
    table are image names, so not empty); for a runtime without an entry it
    raises the [ValueError] that names the runtime.  Used in a computation,
    it changes neither the object nor the history. *)
Theorem get_image_for_runtime_lookup (env : Env) (rt : string) :
  (forall postfix,
      IMAGE_MAPPING env !! rt = Some postfix -> postfix <> EmptyString ->
      get_image_for_runtime env (Some rt) = Returned (IMAGE_PREFIX ++ postfix)%string)
  /\ (IMAGE_MAPPING env !! rt = None ->
      get_image_for_runtime env (Some rt)
      = Raised (new_exn ValueError ("Unsupported runtime " ++ rt ++ "!")%string))
  /\ (forall (S : Type) (s : S) (h : History),
         final (lift (get_image_for_runtime env (Some rt)) s h) = s
         /\ calls (lift (get_image_for_runtime env (Some rt)) s h) = h).
Proof.
  unfold get_image_for_runtime. cbn [mbind option_bind].
  split; [|split].
  - intros postfix -> Hne. destruct postfix; [contradiction|reflexivity].
  - intros ->. reflexivity.
  - intros S s h. split; reflexivity.
Qed.

Lemma get_image_for_runtime_lookup_witness :
  get_image_for_runtime env_plain (Some "python3.9")
  = Returned "amazon/aws-lambda-python:3.9"%string.
Proof.
  exact (proj1 (get_image_for_runtime_lookup env_plain "python3.9")
               "python:3.9"%string eq_refl ltac:(discriminate)).
Defined.


(** ** Versions without a runtime *)

Lemma get_image_for_runtime_None (env : Env) :
  get_image_for_runtime env None
  = Raised (new_exn ValueError "Unsupported runtime None!").
Proof. reflexivity. Qed.

Lemma get_image_without_runtime (env : Env) (self : DockerRuntimeExecutor) (h : History) :
  runtime (fv_config (function_version self)) = None ->
  get_image env self h = mkRun (Raised custom_images_unsupported) self h.
Proof. intros Hrt. unfold get_image. rewrite bind_get_self, Hrt. reflexivity. Qed.

Lemma prepare_image_without_runtime {S} (env : Env) (target : Path)
    (fv : FunctionVersion) (s : S) (h : History) :
  runtime (fv_config fv) = None ->
  prepare_image env target fv s h = mkRun (Raised custom_images_unsupported) s h.
Proof. intros Hrt. unfold prepare_image. rewrite Hrt. reflexivity. Qed.

(** Without a runtime, [start] ends at image selection at the latest. *)
Lemma start_without_runtime (env : Env) (env_vars : gmap string string)
    (self : DockerRuntimeExecutor) (h : History) :
  runtime (fv_config (function_version self)) = None ->
  start env env_vars self h
  = match endpoint_start_ env h (executor_endpoint self) with
    | Raised e =>
        mkRun (Raised e) self
              (h ++ [mkEvent (Cendpoint_start (executor_endpoint self)) (Some e)])
    | Returned _ =>
        match get_container_network_for_lambda_ env
                (h ++ [mkEvent (Cendpoint_start (executor_endpoint self)) None]) with
        | Raised e =>
            mkRun (Raised e) self
                  (h ++ [mkEvent (Cendpoint_start (executor_endpoint self)) None;
                         mkEvent Cget_container_network_for_lambda (Some e)])
        | Returned _ =>
            mkRun (Raised custom_images_unsupported) self
                  (h ++ [mkEvent (Cendpoint_start (executor_endpoint self)) None;
                         mkEvent Cget_container_network_for_lambda None])
        end
    end.
Proof.
  intros Hrt.
  unfold start, _get_network_for_executor, endpoint_start,
    get_container_network_for_lambda.
  rewrite bind_get_self, bind_extern.
  destruct (endpoint_start_ env h (executor_endpoint self)) as [[]|e1]; [|reflexivity].
  rewrite bind_extern.
  destruct (get_container_network_for_lambda_ env _) as [net|e2].
  - unfold bind at 1. rewrite (get_image_without_runtime env self _ Hrt).
    cbn [result final calls]. rewrite <- app_assoc. reflexivity.
  - rewrite <- app_assoc. reflexivity.
Qed.

(** Without a runtime, [prepare_version] stops before the pre-build step. *)
Lemma prepare_version_without_runtime {S} (env : Env) (fv : FunctionVersion)
    (s : S) (h : History) (p n : string) :
  runtime (fv_config fv) = None ->
  ~ In (Cbuild_image p n) (calls_of (since h (prepare_version env fv s h))).
Proof.
  intros Hrt.
  remember (prepare_version env fv s h) as r eqn:Hr.
  unfold prepare_version in Hr. rewrite Hrt, get_image_for_runtime_None in Hr.
  exec Hr.
  all: subst r; flatten; cbn [calls_of List.map ev_call In].
  all: intuition discriminate.
Qed.

(** C10: for a version whose configuration has no runtime, image selection
    and the pre-build step both raise the [NotImplementedError] for custom
    images without making a call.  A [start] of such a version raises; it
    raises that error once the endpoint has started and the network is
    known, and the only calls it can have made are these two, so no
    container is created.  [prepare_version] never gets as far as building
    an image. *)
Theorem missing_runtime_is_not_implemented
    (env : Env) (env_vars : gmap string string)
    (self : DockerRuntimeExecutor) (h : History) :
  runtime (fv_config (function_version self)) = None ->
  get_image env self h = mkRun (Raised custom_images_unsupported) self h
  /\ (forall (S : Type) (target : Path) (s : S) (h' : History),
         prepare_image env target (function_version self) s h'
         = mkRun (Raised custom_images_unsupported) s h')
  /\ (exists e, result (start env env_vars self h) = Raised e)
  /\ (forall net,
         endpoint_start_ env h (executor_endpoint self) = Returned tt ->
         get_container_network_for_lambda_ env
           (h ++ [mkEvent (Cendpoint_start (executor_endpoint self)) None])
         = Returned net ->
         result (start env env_vars self h) = Raised custom_images_unsupported)
  /\ (forall c,
         In c (calls_of (since h (start env env_vars self h))) ->
         c = Cendpoint_start (executor_endpoint self)
         \/ c = Cget_container_network_for_lambda)
  /\ (forall (S : Type) (s : S) (h' : History) p n,
         ~ In (Cbuild_image p n)
              (calls_of (since h' (prepare_version env (function_version self) s h')))).
Proof.
  intros Hrt.
  split; [now apply get_image_without_runtime|].
  split; [intros; now apply prepare_image_without_runtime|].
  rewrite (start_without_runtime env env_vars self h Hrt).
  split; [|split; [|split]].
  - destruct (endpoint_start_ env h _) as [[]|e1]; [|eexists; reflexivity].
    destruct (get_container_network_for_lambda_ env _); eexists; reflexivity.
  - intros net -> ->. reflexivity.
  - intros c.
    destruct (endpoint_start_ env h _) as [[]|e1];
      [destruct (get_container_network_for_lambda_ env _)|];
      flatten; cbn [calls_of List.map ev_call In]; intuition.
  - intros. now apply prepare_version_without_runtime.
Qed.

Lemma missing_runtime_is_not_implemented_witness :
  result (start env_plain ∅ (sample_executor (sample_version arn_latest "0" None)) [])
  = Raised (new_exn NotImplementedError "Custom images are currently not supported").
Proof.
  exact (proj1 (proj2 (proj2 (proj2
           (missing_runtime_is_not_implemented env_plain ∅
              (sample_executor (sample_version arn_latest "0" None)) [] eq_refl))))
           "bridge"%string eq_refl eq_refl).
Defined.

(** * Further properties of the module *)

(** ** The image resolver, the names and the paths *)

Local Open Scope string_scope.

(** [get_image_for_runtime] returns exactly for the runtimes that the
    table maps to a non-empty postfix.  A missing runtime ([None]), a
    runtime without an entry and a runtime mapped to the empty string all
    end in the [ValueError] that names the runtime. *)
Theorem get_image_for_runtime_returns_iff (env : Env) (rt : option string) (img : string) :
  (get_image_for_runtime env rt = Returned img
   <-> exists r postfix,
         rt = Some r /\ IMAGE_MAPPING env !! r = Some postfix
         /\ postfix <> EmptyString /\ img = IMAGE_PREFIX ++ postfix)
  /\ (forall e,
         get_image_for_runtime env rt = Raised e ->
         e = new_exn ValueError ("Unsupported runtime " ++ format_opt rt ++ "!"))
  /\ (forall r,
         rt = Some r -> IMAGE_MAPPING env !! r = Some EmptyString ->
         get_image_for_runtime env rt
         = Raised (new_exn ValueError ("Unsupported runtime " ++ r ++ "!"))).
Proof.
  unfold get_image_for_runtime.
  destruct rt as [r|]; cbn [mbind option_bind].
  - destruct (IMAGE_MAPPING env !! r) as [[|c p]|] eqn:E; cbn [truthy negb format_opt].
    + split; [split|split].
      * discriminate.
      * intros (r' & p & Hr & Hp & Hne & _). injection Hr as <-.
        rewrite E in Hp. injection Hp as <-. contradiction.
      * intros e [= <-]. reflexivity.
      * intros r' Hr _. injection Hr as <-. reflexivity.
    + split; [split|split].
      * intros [= <-]. exists r, (String c p). repeat split; [assumption|discriminate].
      * intros (r' & p' & Hr & Hp & _ & ->). injection Hr as <-.
        rewrite E in Hp. injection Hp as <-. reflexivity.
      * discriminate.
      * intros r' Hr Hp. injection Hr as <-. rewrite E in Hp. discriminate.
    + split; [split|split].
      * discriminate.
      * intros (r' & p & Hr & Hp & _). injection Hr as <-.
        rewrite E in Hp. discriminate.
      * intros e [= <-]. reflexivity.
      * intros r' Hr Hp. injection Hr as <-. rewrite E in Hp. discriminate.
  - cbn [truthy negb format_opt]. split; [split|split].
    + discriminate.
    + intros (r & p & Hr & _). discriminate.
    + intros e [= <-]. reflexivity.
    + discriminate.
Qed.

Lemma chr_lower_idem (c : ascii) : chr_lower (chr_lower c) = chr_lower c.
Proof. destruct c as [[] [] [] [] [] [] [] []]; reflexivity. Qed.

Lemma chr_lower_keeps_colon (c : ascii) :
  Ascii.eqb (chr_lower c) ":" = Ascii.eqb c ":".
Proof. destruct c as [[] [] [] [] [] [] [] []]; reflexivity. Qed.

Lemma chr_lower_keeps_dollar (c : ascii) :
  Ascii.eqb (chr_lower c) "$" = Ascii.eqb c "$".
Proof. destruct c as [[] [] [] [] [] [] [] []]; reflexivity. Qed.

Lemma str_lower_idem (s : string) : str_lower (str_lower s) = str_lower s.
Proof.
  induction s as [|c s IH]; [reflexivity|].
  cbn [str_lower]. now rewrite chr_lower_idem, IH.
Qed.

Lemma str_lower_keeps_colon (s : string) :
  str_contains ":" (str_lower s) = str_contains ":" s.
Proof.
  induction s as [|c s IH]; [reflexivity|].
  cbn [str_lower str_contains]. now rewrite chr_lower_keeps_colon, IH.
Qed.

Lemma str_lower_keeps_dollar (s : string) :
  str_contains "$" (str_lower s) = str_contains "$" s.
Proof.
  induction s as [|c s IH]; [reflexivity|].
  cbn [str_lower str_contains]. now rewrite chr_lower_keeps_dollar, IH.
Qed.

Lemma str_lower_app (a b : string) : str_lower (a ++ b) = str_lower a ++ str_lower b.
Proof.
  induction a as [|c a IH]; [reflexivity|].
  change (String (chr_lower c) (str_lower (a ++ b))
          = String (chr_lower c) (str_lower a ++ str_lower b)).
  now rewrite IH.
Qed.

(** The derived image name can be used as a repository name as it is: it
    is in lower case, and it contains neither a colon, which would start a
    tag, nor a dollar sign. *)
Theorem image_name_is_lower_case_and_untagged (fv : FunctionVersion) :
  str_lower (get_image_name_for_function fv) = get_image_name_for_function fv
  /\ str_contains ":" (get_image_name_for_function fv) = false
  /\ str_contains "$" (get_image_name_for_function fv) = false.
Proof.
  unfold get_image_name_for_function.
  destruct (sanitized_no_delimiter (vi_qualified_arn (fv_id fv))) as [Hc Hd].
  split; [|split].
  - rewrite str_lower_app, str_lower_idem. reflexivity.
  - rewrite str_contains_app, str_lower_keeps_colon, Hc. reflexivity.
  - rewrite str_contains_app, str_lower_keeps_dollar, Hd. reflexivity.
Qed.

Lemma str_join_snoc (sep : string) (ws : list string) (w : string) :
  ws <> [] -> str_join sep (ws ++ [w])%list = str_join sep ws ++ sep ++ w.
Proof.
  induction ws as [|v ws IH]; [contradiction|]. intros _.
  destruct ws as [|v' ws]; [reflexivity|].
  change (v ++ sep ++ str_join sep ((v' :: ws) ++ [w])%list
          = (v ++ sep ++ str_join sep (v' :: ws)) ++ sep ++ w).
  rewrite IH by discriminate. now rewrite !str_append_assoc.
Qed.

Lemma Path_str_child (r : string) (ws : list string) (w : string) :
  ws <> [] ->
  Path_str {| root := r; parts := (ws ++ [w])%list |}
  = Path_str {| root := r; parts := ws |} ++ "/" ++ w.
Proof.
  intros Hne. destruct ws as [|v ws]; [contradiction|].
  pose proof (str_join_snoc "/" (v :: ws) w Hne) as J.
  unfold Path_str. cbn [root parts].
  change ((v :: ws) ++ [w])%list with (v :: (ws ++ [w]))%list in *.
  destruct r; rewrite J, ?str_append_assoc; reflexivity.
Qed.

(** Whatever the identity and the revision are, the artifact path starts
    with the components of the temporary directory and the component
    [lambda]. *)
Lemma get_path_for_function_prefix (env : Env) (fv : FunctionVersion) :
  parts (get_path_for_function env fv)
  = (parts (Path_of (gettempdir env))
     ++ "lambda"
        :: parts (Path_of (sanitized (vi_qualified_arn (fv_id fv)) ++ "_"
                           ++ internal_revision (fv_config fv) ++ "/")%string))%list.
Proof.
  unfold get_path_for_function, Path_of. cbn [parts].
  set (rest := sanitized (vi_qualified_arn (fv_id fv)) ++ "_"
               ++ internal_revision (fv_config fv) ++ "/").
  change (gettempdir env ++ "/lambda/" ++ rest)
    with (gettempdir env ++ String "/" ("lambda" ++ String "/" rest)).
  rewrite !str_split_app, !List.filter_app. reflexivity.
Qed.

(** The artifact directory of every version lies in the directory [lambda]
    of the temporary directory; for an identity and a revision without a
    slash it is a direct child of it, named by the sanitized identity, an
    underscore and the revision. *)
Theorem artifact_path_is_under_tmp_lambda (env : Env) (fv : FunctionVersion) :
  (exists tail,
      parts (get_path_for_function env fv)
      = (parts (Path_of (gettempdir env)) ++ "lambda" :: tail)%list)
  /\ (str_contains "/" (vi_qualified_arn (fv_id fv)) = false ->
      str_contains "/" (internal_revision (fv_config fv)) = false ->
      parts (get_path_for_function env fv)
      = (parts (Path_of (gettempdir env))
         ++ ["lambda";
             (sanitized (vi_qualified_arn (fv_id fv)) ++ "_"
              ++ internal_revision (fv_config fv))%string])%list).
Proof.
  split.
  - eexists. apply get_path_for_function_prefix.
  - apply get_path_for_function_parts.
Qed.

Lemma artifact_path_is_under_tmp_lambda_witness :
  parts (get_path_for_function env_plain (sample_version arn_latest "3" None))
  = ["tmp"; "lambda"; "arn_aws_lambda_us-east-1_000000000000_function_f__LATEST_3"].
Proof.
  exact (proj2 (artifact_path_is_under_tmp_lambda env_plain
                  (sample_version arn_latest "3" None))
               eq_refl eq_refl).
Defined.

(** The code directory is the child [code] of the artifact directory, as a
    path and as a text. *)
Theorem code_path_is_child_of_artifact_path (env : Env) (fv : FunctionVersion) :
  root (get_code_path_for_function env fv) = root (get_path_for_function env fv)
  /\ parts (get_code_path_for_function env fv)
     = (parts (get_path_for_function env fv) ++ ["code"])%list
  /\ Path_str (get_code_path_for_function env fv)
     = Path_str (get_path_for_function env fv) ++ "/code".
Proof.
  unfold get_code_path_for_function.
  set (p := get_path_for_function env fv).
  assert (Hdiv : Path_div p "code"
                 = {| root := root p; parts := (parts p ++ ["code"])%list |})
    by reflexivity.
  rewrite Hdiv. cbn [root parts]. repeat split.
  rewrite Path_str_child.
  - destruct p; reflexivity.
  - subst p. rewrite get_path_for_function_prefix.
    destruct (parts (Path_of (gettempdir env))); discriminate.
Qed.

Lemma str_replace_length (old new : ascii) (s : string) :
  String.length (str_replace old new s) = String.length s.
Proof. induction s as [|c s IH]; [reflexivity|]. cbn. now rewrite IH. Qed.

Lemma str_replace_absent (old new : ascii) (s : string) :
  str_contains old s = false -> str_replace old new s = s.
Proof.
  induction s as [|c s IH]; [reflexivity|]. cbn [str_contains str_replace].
  intros [Hc Hs]%orb_false_elim. now rewrite Hc, IH.
Qed.

Lemma str_replace_present (old new : ascii) (s : string) :
  old <> new -> str_replace old new s = s -> str_contains old s = false.
Proof.
  intros Hne. induction s as [|c s IH]; [reflexivity|].
  cbn [str_contains str_replace]. intros E. injection E as Ec Es.
  rewrite (IH Es), orb_false_r.
  destruct (Ascii.eqb_spec c old) as [->|]; [congruence|reflexivity].
Qed.

(** Sanitizing keeps the length of an identity, changes nothing when
    applied again, and leaves alone exactly the identities that contain
    neither a colon nor a dollar sign. *)
Theorem sanitized_fixes_plain_identities (arn : string) :
  String.length (sanitized arn) = String.length arn
  /\ sanitized (sanitized arn) = sanitized arn
  /\ (sanitized arn = arn
      <-> str_contains ":" arn = false /\ str_contains "$" arn = false).
Proof.
  destruct (sanitized_no_delimiter arn) as [Hc Hd].
  split; [|split].
  - unfold sanitized. now rewrite !str_replace_length.
  - unfold sanitized at 1.
    rewrite (str_replace_absent ":" "_" _ Hc), (str_replace_absent "$" "_" _ Hd).
    reflexivity.
  - split.
    + intros E. rewrite <- E. split; assumption.
    + intros [Hc' Hd']. unfold sanitized.
      rewrite (str_replace_absent ":" "_" _ Hc'). now apply str_replace_absent.
Qed.

(** The build descriptor consists of three directives, one per line: the
    base image, the copy of the init binary to the entry point, and the
    copy of the code tree to [/var/task]. *)
Theorem LAMBDA_DOCKERFILE_has_three_directives (base_img rapid_entrypoint : string) :
  str_contains (ascii_of_nat 10) base_img = false ->
  str_contains (ascii_of_nat 10) rapid_entrypoint = false ->
  str_split (ascii_of_nat 10) (LAMBDA_DOCKERFILE base_img rapid_entrypoint)
  = ["FROM " ++ base_img;
     "COPY aws-lambda-rie " ++ rapid_entrypoint;
     "COPY code/ /var/task";
     ""].
Proof.
  intros Hb Hr. unfold LAMBDA_DOCKERFILE, newline.
  replace ("FROM " ++ base_img ++ String (ascii_of_nat 10) "" ++
           "COPY aws-lambda-rie " ++ rapid_entrypoint ++ String (ascii_of_nat 10) "" ++
           "COPY code/ /var/task" ++ String (ascii_of_nat 10) "")
    with (("FROM " ++ base_img) ++ String (ascii_of_nat 10)
            (("COPY aws-lambda-rie " ++ rapid_entrypoint) ++ String (ascii_of_nat 10)
               ("COPY code/ /var/task" ++ String (ascii_of_nat 10) ""))).
  - rewrite !str_split_app.
    rewrite (str_split_no_sep _ ("FROM " ++ base_img)),
            (str_split_no_sep _ ("COPY aws-lambda-rie " ++ rapid_entrypoint)).
    + reflexivity.
    + rewrite str_contains_app, Hr. reflexivity.
    + rewrite str_contains_app, Hb. reflexivity.
  - rewrite !str_append_assoc. reflexivity.
Qed.

Lemma LAMBDA_DOCKERFILE_has_three_directives_witness :
  str_split (ascii_of_nat 10)
    (LAMBDA_DOCKERFILE "amazon/aws-lambda-python:3.9" RAPID_ENTRYPOINT)
  = ["FROM amazon/aws-lambda-python:3.9";
     "COPY aws-lambda-rie /var/rapid/init";
     "COPY code/ /var/task";
     ""].
Proof.
  exact (LAMBDA_DOCKERFILE_has_three_directives
           "amazon/aws-lambda-python:3.9" RAPID_ENTRYPOINT eq_refl eq_refl).
Defined.

(** ** The life cycle of an executor, continued *)

Local Open Scope list_scope.

Ltac run_start Hr :=
  unfold start, get_image, _get_network_for_executor, set_ip, set_container_address in Hr;
  exec Hr.

(** Facts about membership in an explicit list of calls are settled by
    going through the list. *)
Ltac by_cases H :=
  cbn [calls_of List.map ev_call In] in H;
  repeat (destruct H as [H|H]; [try discriminate H|]);
  try contradiction.

(** A [start] that raises leaves the executor as it was; a [start] that
    returns has changed two fields only, the address of the executor and
    the container address of its endpoint, and has set both to the same
    value. *)
Theorem start_changes_only_the_address
    (env : Env) (env_vars : gmap string string)
    (self : DockerRuntimeExecutor) (h : History) :
  match result (start env env_vars self h) with
  | Raised _ => final (start env env_vars self h) = self
  | Returned _ =>
      exists address,
        final (start env env_vars self h)
        = {| id := id self;
             function_version := function_version self;
             service_endpoint := service_endpoint self;
             ip := Some address;
             executor_endpoint :=
               {| port := port (executor_endpoint self);
                  ep_service_endpoint := ep_service_endpoint (executor_endpoint self);
                  container_address := Some address |} |}
  end.
Proof.
  remember (start env env_vars self h) as r eqn:Hr.
  run_start Hr.
  all: subst r; cbn [result final]; try reflexivity.
  all: eexists; reflexivity.
Qed.

(** [start] undoes nothing and logs nothing: whatever happens, it calls
    only the endpoint's start, the network lookup, the creation of the
    container, the lookup of the init binary, the two copies, the start of
    the container and the lookup of its address. *)
Theorem start_makes_no_teardown_call
    (env : Env) (env_vars : gmap string string)
    (self : DockerRuntimeExecutor) (h : History) (c : Call) :
  In c (calls_of (since h (start env env_vars self h))) -> start_call c.
Proof.
  remember (start env env_vars self h) as r eqn:Hr.
  run_start Hr.
  all: subst r; flatten; intros Hin; by_cases Hin.
  all: subst c; exact I.
Qed.

Lemma start_makes_no_teardown_call_witness :
  start_call (Cstart_container "executor-1").
Proof.
  apply (start_makes_no_teardown_call env_plain ∅
           (sample_executor (sample_version arn_latest "0" (Some "python3.9"))) []).
  vm_compute. tauto.
Defined.

(** Every call of [start] that names a container names the executor's own:
    the container is created under the executor's id, with the environment
    passed to [start] and the init binary as entry point; the copies go
    into that container, to the entry point and to [/var/task]; that
    container is started; and its address is resolved on the network it was
    created in. *)
Theorem start_addresses_its_own_container
    (env : Env) (vars : gmap string string)
    (self : DockerRuntimeExecutor) (h : History) :
  (forall cfg,
      In (Ccreate_container_from_config cfg)
         (calls_of (since h (start env vars self h))) ->
      name cfg = id self /\ env_vars cfg = vars
      /\ entrypoint cfg = RAPID_ENTRYPOINT)
  /\ (forall c src dst,
         In (Ccopy_into_container c src dst)
            (calls_of (since h (start env vars self h))) ->
         c = id self
         /\ (dst = RAPID_ENTRYPOINT
             \/ (src = (Path_str (get_code_path_for_function env (function_version self))
                        ++ "/.")%string
                 /\ dst = "/var/task"%string)))
  /\ (forall c,
         In (Cstart_container c) (calls_of (since h (start env vars self h))) ->
         c = id self)
  /\ (forall c net,
         In (Cget_container_ipv4_for_network c net)
            (calls_of (since h (start env vars self h))) ->
         c = id self
         /\ exists cfg,
              In (Ccreate_container_from_config cfg)
                 (calls_of (since h (start env vars self h)))
              /\ network cfg = net).
Proof.
  remember (start env vars self h) as r eqn:Hr.
  run_start Hr.
  all: subst r; flatten.
  all: split; [intros cfg Hin; by_cases Hin; injection Hin as <-; repeat split|].
  all: split; [intros c src dst Hin; by_cases Hin; injection Hin as <- <- <-; auto|].
  all: split; [intros c Hin; by_cases Hin; injection Hin as <-; reflexivity|].
  all: intros c net Hin; by_cases Hin; injection Hin as <- <-.
  all: split; [reflexivity|].
  all: eexists; split; [cbn [calls_of List.map ev_call In]; eauto 10|reflexivity].
Qed.

(** An exception of stopping or of removing the container ends [stop] at
    once: it reaches the caller, and the steps that would follow (removing
    the container, shutting the endpoint down) are not taken. *)
Theorem stop_propagates_container_errors
    (env : Env) (self : DockerRuntimeExecutor) (h : History) :
  (forall e,
      stop_container_ env h (id self) 5 = Raised e ->
      stop env self h
      = mkRun (Raised e) self
              (h ++ [mkEvent (Cstop_container (id self) 5) (Some e)]))
  /\ (forall e,
         stop_container_ env h (id self) 5 = Returned tt ->
         remove_container_ env (h ++ [mkEvent (Cstop_container (id self) 5) None])
                           (id self) = Raised e ->
         stop env self h
         = mkRun (Raised e) self
                 (h ++ [mkEvent (Cstop_container (id self) 5) None;
                        mkEvent (Cremove_container (id self)) (Some e)])).
Proof.
  split.
  - intros e Hstop. unfold stop, stop_container.
    rewrite bind_get_self, bind_extern, Hstop. reflexivity.
  - intros e Hstop Hremove. unfold stop, stop_container, remove_container.
    rewrite bind_get_self, bind_extern, Hstop, bind_extern, Hremove.
    rewrite <- app_assoc. reflexivity.
Qed.

Lemma stop_propagates_container_errors_witness :
  result (stop env_stop_container_fails
               (sample_executor (sample_version arn_latest "0" (Some "python3.9"))) [])
  = Raised container_gone
  /\ calls_of (calls (stop env_remove_container_fails
                        (sample_executor (sample_version arn_latest "0" (Some "python3.9")))
                        []))
     = [Cstop_container "executor-1" 5; Cremove_container "executor-1"].
Proof.
  split.
  - rewrite (proj1 (stop_propagates_container_errors env_stop_container_fails
                      (sample_executor (sample_version arn_latest "0" (Some "python3.9")))
                      [])
                   container_gone eq_refl).
    reflexivity.
  - rewrite (proj2 (stop_propagates_container_errors env_remove_container_fails
                      (sample_executor (sample_version arn_latest "0" (Some "python3.9")))
                      [])
                   container_gone eq_refl eq_refl).
    reflexivity.
Defined.





(** A constructed executor has no address, and neither has its endpoint;
    the endpoint is bound to the port that was allocated and to the service
    endpoint passed in.  Constructing allocates the port, builds the
    endpoint and logs twice; it does not start the endpoint. *)
Theorem constructor_allocates_port_and_builds_endpoint
    {S : Type} (env : Env) (name : string) (fv : FunctionVersion)
    (se : ServiceEndpoint) (s : S) (h : History) (obj : DockerRuntimeExecutor) :
  result (__init__ env name fv se s h) = Returned obj ->
  get_free_tcp_port_ env h = Returned (port (executor_endpoint obj))
  /\ obj = {| id := name; function_version := fv; service_endpoint := se;
              ip := None;
              executor_endpoint :=
                {| port := port (executor_endpoint obj);
                   ep_service_endpoint := se;
                   container_address := None |} |}
  /\ final (__init__ env name fv se s h) = s
  /\ calls_of (since h (__init__ env name fv se s h))
     = [Cget_free_tcp_port;
        CLog LOG_debug "Creating service endpoint for function %s executor %s"
          [AStr (qualified_arn fv); AStr name];
        CExecutorEndpoint (port (executor_endpoint obj)) se;
        CLog LOG_debug "Finished creating service endpoint for function %s executor %s"
          [AStr (qualified_arn fv); AStr name]].
Proof.
  remember (__init__ env name fv se s h) as r eqn:Hr.
  unfold __init__, _build_executor_endpoint in Hr. exec Hr.
  all: subst r; flatten; cbn [result final]; intros E; try discriminate E.
  injection E as <-. cbn [port executor_endpoint]. repeat split.
Qed.

Lemma constructor_allocates_port_and_builds_endpoint_witness :
  get_free_tcp_port_ env_plain [] = Returned 4566%Z.
Proof.
  exact (proj1 (constructor_allocates_port_and_builds_endpoint env_plain "executor-1"
                  (sample_version arn_latest "0" (Some "python3.9")) 1%positive tt []
                  (sample_executor (sample_version arn_latest "0" (Some "python3.9")))
                  eq_refl)).
Defined.

(** When port allocation or the construction of the endpoint raises, the
    constructor raises the same exception and nothing is constructed. *)
Theorem constructor_propagates_errors
    {S : Type} (env : Env) (name : string) (fv : FunctionVersion)
    (se : ServiceEndpoint) (s : S) (h : History) (e : exn) :
  In (mkEvent Cget_free_tcp_port (Some e)) (since h (__init__ env name fv se s h))
  \/ (exists p, In (mkEvent (CExecutorEndpoint p se) (Some e))
                   (since h (__init__ env name fv se s h))) ->
  result (__init__ env name fv se s h) = Raised e.
Proof.
  remember (__init__ env name fv se s h) as r eqn:Hr.
  unfold __init__, _build_executor_endpoint in Hr. exec Hr.
  all: subst r; flatten; cbn [result].
  all: intros [Hin|[p Hin]]; cbn [In] in Hin;
    repeat (destruct Hin as [Hin|Hin]; [try discriminate Hin|]); try contradiction.
  all: injection Hin; intros; subst; reflexivity.
Qed.

Lemma constructor_propagates_errors_witness :
  result (__init__ env_no_free_port "executor-1"
            (sample_version arn_latest "0" (Some "python3.9")) 1%positive tt [])
  = Raised no_free_port.
Proof.
  apply (constructor_propagates_errors env_no_free_port "executor-1"
           (sample_version arn_latest "0" (Some "python3.9")) 1%positive tt []).
  left. vm_compute. tauto.
Defined.

(** ** Cleaning up a version, continued *)

(** An exception of the directory removal that is no [OSError] is not
    caught: [cleanup_version] raises it right away and, even with
    pre-building switched on, does not get to removing the derived image. *)
Theorem cleanup_version_propagates_other_errors
    {S : Type} (env : Env) (fv : FunctionVersion) (s : S) (h : History) (e : exn) :
  rmtree_ env h (get_path_for_function env fv) = Raised e ->
  isinstance e OSError = false ->
  cleanup_version env fv s h
  = mkRun (Raised e) s
          (h ++ [mkEvent (Crmtree (get_path_for_function env fv)) (Some e)]).
Proof.
  intros Hrm Hos. unfold cleanup_version, rmtree.
  rewrite bind_try_except_extern, Hrm, Hos. reflexivity.
Qed.

Lemma cleanup_version_propagates_other_errors_witness :
  cleanup_version env_rmtree_interrupted
    (sample_version arn_latest "0" (Some "python3.9")) tt []
  = mkRun (Raised interrupted) tt
          [mkEvent
             (Crmtree (get_path_for_function env_rmtree_interrupted
                         (sample_version arn_latest "0" (Some "python3.9"))))
             (Some interrupted)].
Proof.
  exact (cleanup_version_propagates_other_errors env_rmtree_interrupted
           (sample_version arn_latest "0" (Some "python3.9")) tt []
           interrupted eq_refl eq_refl).
Defined.

(** With pre-building switched off, [cleanup_version] leaves the images
    alone: it never calls [remove_image], and when the directory removal
    succeeds that removal is its only call and it returns normally. *)
Theorem cleanup_version_keeps_images_without_prebuild
    {S : Type} (env : Env) (fv : FunctionVersion) (s : S) (h : History) :
  LAMBDA_PREBUILD_IMAGES env = false ->
  (forall image,
      ~ In (Cremove_image image) (calls_of (since h (cleanup_version env fv s h))))
  /\ (rmtree_ env h (get_path_for_function env fv) = Returned tt ->
      cleanup_version env fv s h
      = mkRun (Returned tt) s
              (h ++ [mkEvent (Crmtree (get_path_for_function env fv)) None])).
Proof.
  intros Hoff. split.
  - intros image.
    remember (cleanup_version env fv s h) as r eqn:Hr.
    unfold cleanup_version in Hr. rewrite Hoff in Hr. exec Hr.
    all: subst r; flatten; intros Hin; by_cases Hin.
  - intros Hrm. unfold cleanup_version, rmtree.
    rewrite bind_try_except_extern, Hrm, Hoff. reflexivity.
Qed.

Lemma cleanup_version_keeps_images_without_prebuild_witness :
  cleanup_version env_plain (sample_version arn_latest "0" (Some "python3.9")) tt []
  = mkRun (Returned tt) tt
          [mkEvent
             (Crmtree (get_path_for_function env_plain
                         (sample_version arn_latest "0" (Some "python3.9"))))
             None].
Proof.
  exact (proj2 (cleanup_version_keeps_images_without_prebuild env_plain
                  (sample_version arn_latest "0" (Some "python3.9")) tt [] eq_refl)
               eq_refl).
Defined.

(** ** Preparing a version, continued *)

Ltac units := repeat match goal with u : unit |- _ => destruct u end.

Ltac run_prepare_image Hr := unfold prepare_image in Hr; exec Hr; units.

(** What [prepare_image] writes and builds: the only text it writes is the
    build descriptor for the base image of the runtime, into the file
    [Dockerfile] of the target directory; the only image it builds is the
    derived image of the version, from that file, and it does so only after
    the descriptor has been written and the file closed without error. *)
Theorem prepare_image_builds_from_written_descriptor
    {S : Type} (env : Env) (target : Path) (fv : FunctionVersion)
    (s : S) (h : History) :
  (forall file data o,
      In (mkEvent (Cfile_write file data) o) (since h (prepare_image env target fv s h)) ->
      file = Path_str (Path_div target "Dockerfile")
      /\ exists base_img,
           get_image_for_runtime env (runtime (fv_config fv)) = Returned base_img
           /\ data = Text (LAMBDA_DOCKERFILE base_img RAPID_ENTRYPOINT))
  /\ (forall dockerfile image o,
         In (mkEvent (Cbuild_image dockerfile image) o)
            (since h (prepare_image env target fv s h)) ->
         dockerfile = Path_str (Path_div target "Dockerfile")
         /\ image = get_image_name_for_function fv
         /\ (exists data,
                In (mkEvent (Cfile_write dockerfile data) None)
                   (since h (prepare_image env target fv s h)))
         /\ In (mkEvent (Cfile_exit dockerfile) None)
               (since h (prepare_image env target fv s h))
         /\ result (prepare_image env target fv s h) = Returned tt).
Proof.
  remember (prepare_image env target fv s h) as r eqn:Hr.
  run_prepare_image Hr.
  all: subst r; flatten; cbn [result].
  all: split.
  all: try (intros file data o Hin; cbn [In] in Hin;
            repeat (destruct Hin as [Hin|Hin]; [try discriminate Hin|]);
            try contradiction;
            injection Hin; intros; subst;
            (split; [reflexivity|eexists; split; reflexivity])).
  all: intros dockerfile image o Hin; cbn [In] in Hin;
    repeat (destruct Hin as [Hin|Hin]; [try discriminate Hin|]);
    try contradiction.
  all: injection Hin; intros; subst.
  all: split; [reflexivity|]; split; [reflexivity|].
  all: split; [eexists; cbn [In]; eauto 12|].
  all: split; [cbn [In]; tauto|reflexivity].
Qed.

Ltac run_prepare_version Hr :=
  unfold prepare_version, prepare_image in Hr; exec Hr; units.

(** An explicit list has the member asked for: the first that fits. *)
Ltac find_in := cbn [In]; repeat (first [left; reflexivity | right]).

Ltac events H :=
  cbn [In] in H;
  repeat (destruct H as [H|H]; [try discriminate H|]);
  try contradiction.

(** The temporary file of [prepare_version] is closed on every path: once
    it has been opened, its exit is called, whether fetching the archive,
    writing, flushing or unpacking succeeded or not.  The bytes written to
    it are the archive of the version, it is the file that is unpacked, and
    it is unpacked into the code directory.  An exception raised on leaving
    a file is the exception [prepare_version] raises. *)
Theorem prepare_version_closes_temporary_file
    {S : Type} (env : Env) (fv : FunctionVersion) (s : S) (h : History) :
  (In (mkEvent CNamedTemporaryFile None) (since h (prepare_version env fv s h)) ->
   exists file o,
     In (mkEvent (Cfile_exit file) o) (since h (prepare_version env fv s h))
     /\ (forall file' data o',
            In (mkEvent (Cfile_write file' (Bytes data)) o')
               (since h (prepare_version env fv s h)) ->
            file' = file
            /\ exists h', get_lambda_archive_ env h' (code (fv_config fv)) = Returned data)
     /\ (forall src dst o',
            In (mkEvent (Cunzip src dst) o') (since h (prepare_version env fv s h)) ->
            src = file /\ dst = Path_str (get_code_path_for_function env fv)))
  /\ (forall file e,
         In (mkEvent (Cfile_exit file) (Some e)) (since h (prepare_version env fv s h)) ->
         result (prepare_version env fv s h) = Raised e).
Proof.
  remember (prepare_version env fv s h) as r eqn:Hr.
  run_prepare_version Hr.
  all: subst r; flatten; cbn [result].
  all: split;
    [ intros Hin; events Hin;
      (eexists _, _; split; [find_in|]);
      (split;
       [ intros xfile xdata xo Hw; events Hw; injection Hw; intros; subst;
         (split; [reflexivity|eexists; eassumption])
       | intros xsrc xdst xo Hu; events Hu; injection Hu; intros; subst;
         (split; reflexivity) ])
    | intros xfile xe Hin; events Hin; injection Hin; intros; subst; reflexivity ].
Qed.

Lemma prepare_version_closes_temporary_file_witness :
  exists file o,
    In (mkEvent (Cfile_exit file) o)
       (since [] (prepare_version env_plain
                    (sample_version arn_latest "0" (Some "python3.9")) tt [])).
Proof.
  destruct (proj1 (prepare_version_closes_temporary_file env_plain
                     (sample_version arn_latest "0" (Some "python3.9")) tt []))
    as (file & o & Hin & _).
  - vm_compute. tauto.
  - exists file, o. exact Hin.
Defined.

(** [prepare_version] pulls the base image of the runtime when the local
    cache does not have it, and only then: an image it pulls is that base
    image and is missing from the list the container client gave, and when
    [prepare_version] returns the base image was in that list or has been
    pulled. *)
Theorem prepare_version_pulls_missing_base_image
    {S : Type} (env : Env) (fv : FunctionVersion) (s : S) (h : History) :
  (forall image,
      In (Cpull_image image) (calls_of (since h (prepare_version env fv s h))) ->
      get_image_for_runtime env (runtime (fv_config fv)) = Returned image
      /\ exists h' cached,
           get_docker_image_names_ env h' false = Returned cached
           /\ image ∉ cached)
  /\ (result (prepare_version env fv s h) = Returned tt ->
      exists image h' cached,
        get_image_for_runtime env (runtime (fv_config fv)) = Returned image
        /\ get_docker_image_names_ env h' false = Returned cached
        /\ (image ∈ cached
            \/ In (Cpull_image image)
                  (calls_of (since h (prepare_version env fv s h))))).
Proof.
  remember (prepare_version env fv s h) as r eqn:Hr.
  run_prepare_version Hr.
  all: subst r; flatten; cbn [result].
  all: split;
    [ intros ximage Hin; by_cases Hin; injection Hin; intros; subst;
      (split; [reflexivity|]);
      match goal with
      | Hb : negb (bool_decide _) = true |- _ =>
          apply negb_true_iff, bool_decide_eq_false in Hb;
          eexists _, _; (split; [eassumption|exact Hb])
      end
    | intros Hres; try discriminate Hres;
      eexists _, _, _; (split; [reflexivity|]); (split; [eassumption|]);
      first
        [ match goal with
          | Hb : negb (bool_decide _) = false |- _ =>
              apply negb_false_iff, bool_decide_eq_true in Hb; left; exact Hb
          end
        | right; cbn [calls_of List.map ev_call]; find_in ] ].
Qed.

Lemma prepare_version_pulls_missing_base_image_witness :
  exists image h' cached,
    get_image_for_runtime env_image_cached (Some "python3.9") = Returned image
    /\ get_docker_image_names_ env_image_cached h' false = Returned cached
    /\ (image ∈ cached
        \/ In (Cpull_image image)
              (calls_of (since [] (prepare_version env_image_cached
                                     (sample_version arn_latest "0" (Some "python3.9"))
                                     tt [])))).
Proof.
  exact (proj2 (prepare_version_pulls_missing_base_image env_image_cached
                  (sample_version arn_latest "0" (Some "python3.9")) tt [])
               eq_refl).
Defined.

(** With pre-building switched off, [prepare_version] only stages the code
    and looks after the base image: it reads the clock, creates
    directories, handles the temporary file with the archive, unpacks it,
    lists and pulls images and logs at debug level, and makes no other
    call. *)
Theorem prepare_version_without_prebuild_only_stages
    {S : Type} (env : Env) (fv : FunctionVersion) (s : S) (h : History) (c : Call) :
  LAMBDA_PREBUILD_IMAGES env = false ->
  In c (calls_of (since h (prepare_version env fv s h))) ->
  staging_call c.
Proof.
  intros Hoff.
  remember (prepare_version env fv s h) as r eqn:Hr.
  unfold prepare_version in Hr. rewrite Hoff in Hr. exec Hr. units.
  all: subst r; flatten; intros Hin; by_cases Hin.
  all: subst c; exact I.
Qed.

Lemma prepare_version_without_prebuild_only_stages_witness :
  staging_call (Cpull_image "amazon/aws-lambda-python:3.9").
Proof.
  apply (prepare_version_without_prebuild_only_stages env_plain
           (sample_version arn_latest "0" (Some "python3.9")) tt [] _ eq_refl).
  vm_compute. tauto.
Defined.



(** [cleanup_version] takes back what [prepare_version] made.  The
    directories [prepare_version] creates are the artifact directory and
    its child [code], the build descriptor lies in the artifact directory,
    and the image it builds is the derived image; the directory
    [cleanup_version] removes is that artifact directory and the image it
    removes, with pre-building switched on only, is that derived image.  A
    [cleanup_version] that returns has asked for both removals that
    apply. *)
Theorem cleanup_version_removes_what_prepare_version_made
    {S : Type} (env : Env) (fv : FunctionVersion) (s s' : S) (h h' : History) :
  (forall p parents exist_ok,
      In (Cmkdir p parents exist_ok)
         (calls_of (since h (prepare_version env fv s h))) ->
      (p = get_path_for_function env fv
       \/ p = Path_div (get_path_for_function env fv) "code")
      /\ parents = true /\ exist_ok = true)
  /\ (forall dockerfile image,
         In (Cbuild_image dockerfile image)
            (calls_of (since h (prepare_version env fv s h))) ->
         dockerfile = Path_str (Path_div (get_path_for_function env fv) "Dockerfile")
         /\ image = get_image_name_for_function fv)
  /\ (forall p,
         In (Crmtree p) (calls_of (since h' (cleanup_version env fv s' h'))) ->
         p = get_path_for_function env fv)
  /\ (forall image,
         In (Cremove_image image) (calls_of (since h' (cleanup_version env fv s' h'))) ->
         image = get_image_name_for_function fv /\ LAMBDA_PREBUILD_IMAGES env = true)
  /\ (result (cleanup_version env fv s' h') = Returned tt ->
      In (Crmtree (get_path_for_function env fv))
         (calls_of (since h' (cleanup_version env fv s' h')))
      /\ (LAMBDA_PREBUILD_IMAGES env = true ->
          In (Cremove_image (get_image_name_for_function fv))
             (calls_of (since h' (cleanup_version env fv s' h'))))).
Proof.
  split; [|split].
  - remember (prepare_version env fv s h) as r eqn:Hr.
    run_prepare_version Hr.
    all: subst r; flatten.
    all: intros p parents exist_ok Hin; by_cases Hin; injection Hin; intros; subst.
    all: repeat split; auto.
  - remember (prepare_version env fv s h) as r eqn:Hr.
    run_prepare_version Hr.
    all: subst r; flatten.
    all: intros dockerfile image Hin; by_cases Hin; injection Hin; intros; subst.
    all: split; reflexivity.
  - remember (cleanup_version env fv s' h') as r eqn:Hr.
    unfold cleanup_version in Hr. exec Hr. units.
    all: subst r; flatten; cbn [result].
    all: split; [intros p Hin; by_cases Hin; injection Hin; intros; subst; reflexivity|].
    all: split;
      [ intros image Hin; by_cases Hin; injection Hin; intros; subst;
        (split; reflexivity)
      | intros Hres; try discriminate Hres;
        (split; [cbn [calls_of List.map ev_call]; find_in|]);
        intros Hon; try discriminate Hon; cbn [calls_of List.map ev_call]; find_in ].
Qed.


(** [start] stops at the first step that fails and takes nothing back: when
    it raises, every call before the failing one has succeeded, and the
    exception is the one of the last call made, or, when no call has
    failed, the one of image selection. *)
Theorem start_fails_at_first_failed_step
    (env : Env) (vars : gmap string string)
    (self : DockerRuntimeExecutor) (h : History) (e : exn) :
  result (start env vars self h) = Raised e ->
  (exists before c,
      since h (start env vars self h) = before ++ [mkEvent c (Some e)]
      /\ Forall (fun ev => ev_raised ev = None) before)
  \/ (Forall (fun ev => ev_raised ev = None) (since h (start env vars self h))
      /\ (e = custom_images_unsupported
          \/ get_image_for_runtime env (runtime (fv_config (function_version self)))
             = Raised e)).
Proof.
  remember (start env vars self h) as r eqn:Hr.
  run_start Hr. units.
  all: subst r; flatten; cbn [result]; intros Hres; try discriminate Hres.
  all: injection Hres as <-.
  all: first
    [ left;
      match goal with
      | |- exists before c, ?l = _ /\ _ =>
          exists (firstn (List.length l - 1) l)
      end;
      cbn [List.length Nat.sub firstn]; eexists;
      (split; [reflexivity | repeat constructor])
    | right; (split; [repeat constructor|]); first [left; reflexivity | right; reflexivity] ].
Qed.

Lemma start_fails_at_first_failed_step_witness :
  (exists before c,
      since [] (start env_plain ∅ (sample_executor (sample_version arn_latest "0" None)) [])
      = before ++ [mkEvent c (Some custom_images_unsupported)]
      /\ Forall (fun ev => ev_raised ev = None) before)
  \/ (Forall (fun ev => ev_raised ev = None)
             (since [] (start env_plain ∅
                          (sample_executor (sample_version arn_latest "0" None)) []))
      /\ (custom_images_unsupported = custom_images_unsupported
          \/ get_image_for_runtime env_plain None = Raised custom_images_unsupported)).
Proof.
  exact (start_fails_at_first_failed_step env_plain ∅
           (sample_executor (sample_version arn_latest "0" None)) []
           custom_images_unsupported eq_refl).
Defined.
